(** * Komga source adapter: a shallow embedding of [src/Komga/Komga.ts]

    The adapter maps the REST API of a Komga server onto the catalogue model
    of the Paperback host application.  The embedding follows release 1.1.3
    of the file, the one that declares [KomgaRequestInterceptor].  Of the
    two older revisions shipped next to it, the settings submission of
    release 1.1.2 is kept in [Komga_1_1_2] and the address normalization of
    the first revision in [Komga_demo].

    Conventions.
    - A JavaScript string is a [string] of 8-bit code units (Latin-1);
      [Utf16] gives the authorization string on code units of any size.
    - A JavaScript number that holds a page index, a page number or an HTTP
      status is an [N]; [ToString] prints it in decimal.  A sum of two
      numbers is rounded to the nearest double ([Js.add]): it is the exact
      sum below 2^53 and no longer above.
    - An [async] function is a computation in [Promise]: it runs on a
      [World] (the persistent key-value state of the host and the
      chronological list of observable events) and either resolves with a
      value or rejects with the message of an [Error] (for a [TypeError]
      raised by the engine, the text V8 gives it).  The world a rejected
      computation leaves behind is kept: writes made before a [throw] are
      not rolled back.  A call of [stateManager.store] writes when it is
      made, whether or not its promise is awaited later.
    - A response body is modelled after a successful [JSON.parse], at the
      shape of the Komga data-transfer objects the adapter reads. *)

From stdpp Require Import gmap strings list pretty.
From Stdlib Require Import String Ascii NArith ZArith Lia.
From Stdlib Require QArith_base.

Open Scope string_scope.

(** ** The JavaScript runtime *)

Module Js.

(** [s.slice(-1)]: the last code unit of [s], or the empty string. *)
Fixpoint slice_last (s : string) : string :=
  match s with
  | EmptyString => EmptyString
  | String c EmptyString => String c EmptyString
  | String _ rest => slice_last rest
  end.

(** [ToString] on a non-negative integer number. *)
Definition ToString (n : N) : string := pretty n.

(** Numbers are IEEE 754 doubles.  [round_double x] is the double nearest
    to the non-negative integer [x], ties going to the even significand:
    every integer up to 2^53 is a double, a larger one keeps its 53 leading
    bits.  (No number met here comes near the largest double.) *)
Definition round_double (x : N) : N :=
  if (x <? 2 ^ 53)%N then x
  else
    let e := (N.log2 x - 52)%N in
    let q := (x / 2 ^ e)%N in
    let r := (x mod 2 ^ e)%N in
    let half := (2 ^ (e - 1))%N in
    if (r <? half)%N then (q * 2 ^ e)%N
    else if (half <? r)%N then ((q + 1) * 2 ^ e)%N
    else if N.even q then (q * 2 ^ e)%N
    else ((q + 1) * 2 ^ e)%N.

(** [a + b] on two non-negative integer numbers: the exact sum, rounded. *)
Definition add (a b : N) : N := round_double (a + b).

(** [Array.prototype.join]. *)
Definition join (separator : string) (l : list string) : string :=
  String.concat separator l.

(** [Array.prototype.includes] on an array of strings searched for a
    string: SameValueZero on two strings is code-unit equality. *)
Definition includes (l : list string) (x : string) : bool :=
  existsb (String.eqb x) l.

(** A [Date]: its time value in milliseconds, [None] for an invalid date
    (time value NaN). *)
Definition Date : Type := option Z.

(** [a >= b] on dates compares the time values; any comparison with NaN
    is false. *)
Definition date_ge (a b : Date) : bool :=
  match a, b with
  | Some x, Some y => (y <=? x)%Z
  | _, _ => false
  end.

(** [Buffer.from(s, 'binary').toString('base64')]. *)
Definition base64_alphabet : string :=
  "ABCDEFGHIJKLMNOPQRSTUVWXYZabcdefghijklmnopqrstuvwxyz0123456789+/".

Definition base64_digit (n : N) : ascii :=
  match String.get (N.to_nat n) base64_alphabet with
  | Some c => c
  | None => "="%char
  end.

Fixpoint base64_bytes (bytes : list N) : string :=
  match bytes with
  | [] => ""
  | [a] =>
      String (base64_digit (a / 4))
        (String (base64_digit ((a mod 4) * 16)) "==")
  | [a; b] =>
      String (base64_digit (a / 4))
        (String (base64_digit ((a mod 4) * 16 + b / 16))
           (String (base64_digit ((b mod 16) * 4)) "="))
  | a :: b :: c :: rest =>
      String (base64_digit (a / 4))
        (String (base64_digit ((a mod 4) * 16 + b / 16))
           (String (base64_digit ((b mod 16) * 4 + c / 64))
              (String (base64_digit (c mod 64)) (base64_bytes rest))))
  end%N.

(** [Buffer.from(s, 'binary')] on a Latin-1 string: one byte for each
    code unit, the code unit itself. *)
Definition binary_bytes (s : string) : list N :=
  map N_of_ascii (list_ascii_of_string s).

Definition base64 (s : string) : string := base64_bytes (binary_bytes s).

(** [encodeURIComponent]: the unreserved marks and alphanumerics are
    kept, every other code unit is replaced by the percent-escapes of its
    UTF-8 encoding. *)
Definition uri_unreserved (c : ascii) : bool :=
  let n := N_of_ascii c in
  ((65 <=? n) && (n <=? 90) || (97 <=? n) && (n <=? 122)
   || (48 <=? n) && (n <=? 57))%N
  || existsb (Ascii.eqb c) (list_ascii_of_string "-_.!~*'()").

Definition hex_digit (n : N) : ascii :=
  match String.get (N.to_nat n) "0123456789ABCDEF" with
  | Some c => c
  | None => "0"%char
  end.

Definition percent_escape (byte : N) : string :=
  String "%" (String (hex_digit (byte / 16))
                (String (hex_digit (byte mod 16)) "")).

Definition utf8 (n : N) : list N :=
  if (n <? 128)%N then [n] else [192 + n / 64; 128 + n mod 64]%N.

Fixpoint encodeURIComponent (s : string) : string :=
  match s with
  | EmptyString => EmptyString
  | String c rest =>
      (if uri_unreserved c then String c ""
       else String.concat "" (map percent_escape (utf8 (N_of_ascii c))))
      +:+ encodeURIComponent rest
  end.

End Js.

(** ** The objects of the host ([paperback-extensions-common]) *)

Module Paperback.

(** The two members of the [MangaStatus] enumeration the adapter uses. *)
Inductive MangaStatus : Type := ONGOING | COMPLETED.

(** [createRequestObject]: absent fields are [undefined]. *)
Record Request : Type := createRequestObject {
  url : string;
  method : string;
  param : option string;
  incognito : option bool;
  headers : option (gmap string string)
}.

(** A series ("serie") as Komga returns it; [lastModified] is held as the
    date [new Date(serie.metadata.lastModified)] evaluates to. *)
Record SerieMetadata : Type := {
  title : string;
  readingDirection : string;
  lastModified : Js.Date
}.

Record Serie : Type := {
  serie_id : string;
  metadata : SerieMetadata
}.

(** An entry of the page list of a book. *)
Record Page : Type := {
  number : N;
  mediaType : string
}.

(** The parsed body of a response: a page of series (an object with a
    [content] array), a single series, or the page list of a book (an
    array). *)
Inductive Body : Type :=
| SeriesPage (content : list Serie)
| SerieBody (serie : Serie)
| BookPages (pages : list Page).

Record Response : Type := {
  status : N;
  data : Body
}.

Record IconText : Type := createIconText { text : string }.

Record MangaTile : Type := createMangaTile {
  tile_id : string;
  tile_title : IconText;
  image : string;
  subtitleText : IconText
}.

(** The continuation cursor [{page: n}]. *)
Record Cursor : Type := { page : N }.

(** [createPagedResults]; a [metadata] of [None] is [undefined]. *)
Record PagedResults : Type := createPagedResults {
  results : list MangaTile;
  paged_metadata : option Cursor
}.

Record ChapterDetails : Type := createChapterDetails {
  chapter_id : string;
  longStrip : bool;
  chapter_mangaId : string;
  chapter_pages : list string
}.

Record SearchRequest : Type := createSearchRequest {
  search_title : option string
}.

(** The values that reach the accumulator of the update poll: the
    candidate ids are strings, the elements of a [content] array are
    objects. *)
Inductive Value : Type :=
| VString (s : string)
| VSerie (serie : Serie).

(** SameValueZero of a string and a value: a string is never the same
    value as an object. *)
Definition same_value_zero (s : string) (v : Value) : bool :=
  match v with
  | VString s' => String.eqb s s'
  | VSerie _ => false
  end.

(** [ids.includes(v)] for an array [ids] of strings. *)
Definition includes (ids : list string) (v : Value) : bool :=
  existsb (fun s => same_value_zero s v) ids.

Record MangaUpdates : Type := createMangaUpdates {
  ids : list Value
}.

(** The settings form: the values of its three input fields. *)
Record Form : Type := {
  serverAddress : string;
  serverUsername : string;
  serverPassword : string
}.

Definition form_keys : list string :=
  ["serverAddress"; "serverUsername"; "serverPassword"].

Definition form_get (form : Form) (key : string) : string :=
  if String.eqb key "serverAddress" then serverAddress form
  else if String.eqb key "serverUsername" then serverUsername form
  else serverPassword form.

(** What the host observes of a call besides its result. *)
Inductive Event : Type :=
| Dispatched (request : Request)
| UpdatesFound (updates : MangaUpdates).
(* [UpdatesFound] holds the contents the array of ids has when the callback
   is called; the array itself stays shared with the polling loop. *)

Record World : Type := {
  state : gmap string string;
  events : list Event
}.

Inductive Outcome (A : Type) : Type :=
| Resolved (a : A)
| Rejected (message : string).
Arguments Resolved {A} a.
Arguments Rejected {A} message.

Definition Promise (A : Type) : Type := World -> Outcome A * World.

Definition resolve {A : Type} (a : A) : Promise A := fun w => (Resolved a, w).

Definition throw {A : Type} (message : string) : Promise A :=
  fun w => (Rejected message, w).

Definition await {A B : Type} (p : Promise A) (k : A -> Promise B)
  : Promise B :=
  fun w =>
    match p w with
    | (Resolved a, w') => k a w'
    | (Rejected message, w') => (Rejected message, w')
    end.

(** [try { p } catch (error) { handler(error.message) }]. *)
Definition try_catch {A : Type} (p : Promise A)
  (handler : string -> Promise A) : Promise A :=
  fun w =>
    match p w with
    | (Resolved a, w') => (Resolved a, w')
    | (Rejected message, w') => handler message w'
    end.

(** [stateManager.retrieve(key)]; [None] is [null]. *)
Definition retrieve (key : string) : Promise (option string) :=
  fun w => (Resolved (state w !! key), w).

(** [stateManager.store(key, value)]. *)
Definition store (key value : string) : Promise unit :=
  fun w => (Resolved tt,
            {| state := <[key := value]> (state w); events := events w |}).

Definition emit (e : Event) : Promise unit :=
  fun w => (Resolved tt,
            {| state := state w; events := events w ++ [e] |}).

(** [for (const x of l) { body(x) }] for a body that cannot break. *)
Fixpoint for_each {A : Type} (l : list A) (body : A -> Promise unit)
  : Promise unit :=
  match l with
  | [] => resolve tt
  | x :: rest => await (body x) (fun _ => for_each rest body)
  end.

End Paperback.

Declare Scope promise_scope.
Delimit Scope promise_scope with promise.
Notation "'let*' x ':=' p 'in' k" :=
  (Paperback.await p (fun x => k))
  (at level 10, x pattern, p at level 100, k at level 200) : promise_scope.
Notation "p ';;' k" :=
  (Paperback.await p (fun _ => k))
  (at level 100, k at level 200, right associativity) : promise_scope.

(** ** The adapter, release 1.1.3 *)

Module Komga.
Import Paperback.
Local Open Scope promise_scope.

Definition SUPPORTED_IMAGE_TYPES : list string :=
  ["image/jpeg"; "image/png"; "image/gif"; "image/webp"; "application/pdf"].

(** Number of items requested for paged requests. *)
Definition PAGE_SIZE : N := 40.

Definition parseMangaStatus (komgaStatus : string) : MangaStatus :=
  if String.eqb komgaStatus "ENDED" then COMPLETED
  else if String.eqb komgaStatus "ONGOING" then ONGOING
  else if String.eqb komgaStatus "ABANDONED" then ONGOING
  else if String.eqb komgaStatus "HIATUS" then ONGOING
  else ONGOING.

(** *** [KomgaRequestInterceptor] *)

Module KomgaRequestInterceptor.

Definition getAuthorizationString : Promise string :=
  let* authorizationString := retrieve "authorization" in
  match authorizationString with
  | None => throw "Unset credentials in source settings"
  | Some authorizationString => resolve authorizationString
  end.

Definition interceptResponse (response : Response) : Promise Response :=
  resolve response.

Definition set_headers (request : Request) (h : gmap string string)
  : Request :=
  createRequestObject (url request) (method request) (param request)
    (incognito request) (Some h).

Definition interceptRequest (request : Request) : Promise Request :=
  let request :=
    match headers request with
    | None => set_headers request ∅
    | Some _ => request
    end in
  let h := default ∅ (headers request) in
  match h !! "authorization" with
  | None =>
      let* authorization := getAuthorizationString in
      resolve (set_headers request (<["authorization" := authorization]> h))
  | Some _ => resolve request
  end.

End KomgaRequestInterceptor.

(** *** The class [Komga] *)

Definition createAuthorizationString (username password : string) : string :=
  "Basic " +:+ Js.base64 (username +:+ ":" +:+ password).

Definition createKomgaAPI (serverAddress : string) : string :=
  serverAddress +:+
  (if String.eqb (Js.slice_last serverAddress) "/" then "api/v1"
   else "/api/v1").

Definition getAuthorizationString : Promise string :=
  let* authorizationString := retrieve "authorization" in
  match authorizationString with
  | None => throw "Unset credentials in source settings"
  | Some authorizationString => resolve authorizationString
  end.

Definition getKomgaAPI : Promise string :=
  let* komgaAPI := retrieve "komgaAPI" in
  match komgaAPI with
  | None => throw "Unset server URL in source settings"
  | Some komgaAPI => resolve komgaAPI
  end.

Section Requests.

(** The server behind the request manager: the response to a request,
    or the message of the transport error. *)
Variable net : Request -> Outcome Response.

(** [requestManager.schedule]: the manager is created with a
    [KomgaRequestInterceptor]; the host passes every request through
    [interceptRequest] before it is sent and every response through
    [interceptResponse] before it is handed back. *)
Definition schedule (request : Request) (priority : N)
  : Promise Response :=
  let* request' := KomgaRequestInterceptor.interceptRequest request in
  emit (Dispatched request') ;;
  let* response := (fun w => (net request', w)) in
  KomgaRequestInterceptor.interceptResponse response.

(** [for (let x of l) { out.push(f(x)) }] on an empty [out]. *)
Definition for_push {A B : Type} (l : list A) (f : A -> B) : list B :=
  fold_left (fun out x => (out ++ [f x])%list) l [].

(** [result.content], iterated: only a page of series has the array. *)
Definition content_of (result : Body) : Promise (list Serie) :=
  match result with
  | SeriesPage content => resolve content
  | _ => throw "result.content is not iterable"
  end.

(** [result], iterated: only the page list is an array. *)
Definition pages_of (result : Body) : Promise (list Page) :=
  match result with
  | BookPages pages => resolve pages
  | _ => throw "result is not iterable"
  end.

(** [serieResult.metadata]: only a series has the object. *)
Definition metadata_of (serieResult : Body) : Promise SerieMetadata :=
  match serieResult with
  | SerieBody serie => resolve (metadata serie)
  | _ =>
      throw "Cannot read properties of undefined (reading 'readingDirection')"
  end.

Definition getChapterDetails (mangaId chapterId : string)
  : Promise ChapterDetails :=
  let* komgaAPI := getKomgaAPI in
  let request :=
    createRequestObject
      (komgaAPI +:+ "/books/" +:+ chapterId +:+ "/pages") "GET"
      None None None in
  let* data := schedule request 1 in
  let* result := pages_of (Paperback.data data) in
  let pages :=
    for_push result (fun page =>
      if Js.includes SUPPORTED_IMAGE_TYPES (mediaType page)
      then komgaAPI +:+ "/books/" +:+ chapterId +:+ "/pages/"
           +:+ Js.ToString (number page)
      else komgaAPI +:+ "/books/" +:+ chapterId +:+ "/pages/"
           +:+ Js.ToString (number page) +:+ "?convert=png") in
  let serieRequest :=
    createRequestObject (komgaAPI +:+ "/series/" +:+ mangaId +:+ "/") "GET"
      None None None in
  let* serieResponse := schedule serieRequest 1 in
  let* serieMetadata := metadata_of (Paperback.data serieResponse) in
  let longStrip :=
    if Js.includes ["VERTICAL"; "WEBTOON"] (readingDirection serieMetadata)
    then true else false in
  resolve (createChapterDetails chapterId longStrip mangaId pages).

Definition searchRequest (searchQuery : SearchRequest)
  (metadata : option Cursor) : Promise PagedResults :=
  let* komgaAPI := getKomgaAPI in
  let page := match metadata with Some m => page m | None => 0%N end in
  let paramsList :=
    ["page=" +:+ Js.ToString page; "size=" +:+ Js.ToString PAGE_SIZE] in
  let paramsList :=
    match search_title searchQuery with
    | Some title =>
        (paramsList ++ ["search=" +:+ Js.encodeURIComponent title])%list
    | None => paramsList
    end in
  let paramsString :=
    if (0 <? List.length paramsList)%nat
    then "?" +:+ Js.join "&" paramsList else "" in
  let request :=
    createRequestObject (komgaAPI +:+ "/series") "GET"
      (Some paramsString) None None in
  let* data := schedule request 1 in
  let* content := content_of (Paperback.data data) in
  let tiles := for_push content (fun serie =>
      createMangaTile (serie_id serie)
        (createIconText (title (Paperback.metadata serie)))
        (komgaAPI +:+ "/series/" +:+ serie_id serie +:+ "/thumbnail")
        (createIconText ("id: " +:+ serie_id serie))) in
  let metadata :=
    if (List.length tiles =? 0)%nat then None
    else Some {| page := Js.add page 1 |} in
  resolve (createPagedResults tiles metadata).

Definition getViewMoreItems (homepageSectionId : string)
  (metadata : option Cursor) : Promise PagedResults :=
  let* komgaAPI := getKomgaAPI in
  let page := match metadata with Some m => page m | None => 0%N end in
  let request :=
    createRequestObject (komgaAPI +:+ "/series/" +:+ homepageSectionId)
      "GET"
      (Some ("?page=" +:+ Js.ToString page +:+ "&size="
             +:+ Js.ToString PAGE_SIZE))
      None None in
  let* data := schedule request 1 in
  let* content := content_of (Paperback.data data) in
  let tiles := for_push content (fun serie =>
      createMangaTile (serie_id serie)
        (createIconText (title (Paperback.metadata serie)))
        (komgaAPI +:+ "/series/" +:+ serie_id serie +:+ "/thumbnail")
        (createIconText ("id: " +:+ serie_id serie))) in
  let metadata :=
    if (List.length tiles =? 0)%nat then None
    else Some {| page := Js.add page 1 |} in
  resolve (createPagedResults tiles metadata).

(** The inner loop of [filterUpdatedManga] over one page: the
    accumulator [foundIds] and the flag [loadMore] after it. *)
Fixpoint scan_content (time : Js.Date) (ids : list string)
  (content : list Serie) (foundIds : list Value) (loadMore : bool)
  : list Value * bool :=
  match content with
  | [] => (foundIds, loadMore)
  | serie :: rest =>
      let serieUpdated := lastModified (metadata serie) in
      if Js.date_ge serieUpdated time then
        if includes ids (VSerie serie)
        then scan_content time ids rest
               (foundIds ++ [VSerie serie])%list loadMore
        else scan_content time ids rest foundIds loadMore
      else (foundIds, false)
  end.

(** How a bounded run of the polling loop ends: the loop was left, or
    the bound was reached with the loop about to fetch [page]. *)
Inductive Poll : Type :=
| Finished
| Polling (page : N) (foundIds : list Value).

(** The [while (loadMore)] loop, entered with [loadMore] true; [fuel]
    bounds the number of pages fetched.  The counter [page] is the number
    of pages fetched so far: it is counted in integers, which is what
    the sum [page + 1] of doubles does for the first 2^53 pages. *)
Fixpoint poll_loop (fuel : nat) (komgaAPI : string) (time : Js.Date)
  (ids : list string) (page : N) (foundIds : list Value)
  : Promise Poll :=
  match fuel with
  | O => resolve (Polling page foundIds)
  | S fuel =>
      let request :=
        createRequestObject (komgaAPI +:+ "/series/updated/") "GET"
          (Some ("?page=" +:+ Js.ToString page +:+ "&size="
                 +:+ Js.ToString PAGE_SIZE))
          None None in
      let* data := schedule request 1 in
      let* content := content_of (Paperback.data data) in
      let '(foundIds, loadMore) :=
        scan_content time ids content foundIds true in
      let loadMore :=
        if (List.length content =? 0)%nat then false else loadMore in
      let page := (page + 1)%N in
      (if (0 <? List.length foundIds)%nat
       then emit (UpdatesFound (createMangaUpdates foundIds))
       else resolve tt) ;;
      if loadMore then poll_loop fuel komgaAPI time ids page foundIds
      else resolve Finished
  end.

Definition filterUpdatedManga (fuel : nat) (time : Js.Date)
  (ids : list string) : Promise Poll :=
  let* komgaAPI := getKomgaAPI in
  poll_loop fuel komgaAPI time ids 0 [].

Definition submitSourceMenuItemForm (itemId : string) (form : Form)
  : Promise unit :=
  for_each form_keys (fun key => store key (form_get form key)) ;;
  let authorization :=
    createAuthorizationString (serverUsername form) (serverPassword form) in
  let komgaAPI := createKomgaAPI (serverAddress form) in
  let request :=
    createRequestObject (komgaAPI +:+ "/series/") "GET" (Some "?size=1")
      (Some true) (Some {["authorization" := authorization]}) in
  let* responseStatus :=
    try_catch
      (let* response := schedule request 1 in resolve (status response))
      (fun message => throw ("Could not connect to server: " +:+ message)) in
  (if (responseStatus =? 200)%N then resolve tt
   else if (responseStatus =? 401)%N
   then throw "401 Unauthorized: Invalid credentials"
   else throw ("Connection failed with status code "
               +:+ Js.ToString responseStatus)) ;;
  store "serverAddress" (serverAddress form) ;;
  store "serverUsername" (serverUsername form) ;;
  store "serverPassword" (serverPassword form) ;;
  store "authorization" authorization ;;
  store "komgaAPI" komgaAPI ;;
  resolve tt.

End Requests.

End Komga.

(** ** The settings submission of release 1.1.2

    The older revision has no interceptor: its request manager sends the
    request as it is. *)

Module Komga_1_1_2.
Import Paperback.
Local Open Scope promise_scope.

Section Requests.

Variable net : Request -> Outcome Response.

Definition schedule (request : Request) (priority : N)
  : Promise Response :=
  emit (Dispatched request) ;;
  fun w => (net request, w).

Definition submitSourceMenuItemForm (itemId : string) (form : Form)
  : Promise unit :=
  for_each form_keys (fun key => store key (form_get form key)) ;;
  let authorization :=
    Komga.createAuthorizationString (serverUsername form)
      (serverPassword form) in
  let komgaAPI := Komga.createKomgaAPI (serverAddress form) in
  store "authorization" authorization ;;
  store "komgaAPI" komgaAPI ;;
  let request :=
    createRequestObject (komgaAPI +:+ "/series/") "GET" (Some "?size=1")
      None (Some {["authorization" := authorization]}) in
  let* responseStatus :=
    try_catch
      (let* response := schedule request 1 in resolve (status response))
      (fun message => throw ("Could not connect to server: " +:+ message)) in
  (if (responseStatus =? 200)%N then resolve tt
   else if (responseStatus =? 401)%N
   then throw "401 Unauthorized: Invalid credentials"
   else throw ("Connection failed with status code "
               +:+ Js.ToString responseStatus)) ;;
  resolve tt.

End Requests.

End Komga_1_1_2.

(** ** The address normalization of the first revision

    The first revision stores only the raw settings and derives the API
    address on every call. *)

Module Komga_demo.
Import Paperback.
Local Open Scope promise_scope.

Definition getKomgaAPI : Promise string :=
  let* serverAddress := retrieve "serverAddress" in
  match serverAddress with
  | None => throw "Cannot read properties of null (reading 'slice')"
  | Some serverAddress =>
      resolve (serverAddress +:+
               (if String.eqb (Js.slice_last serverAddress) "/" then "api/v1"
                else "/api/v1"))
  end.

End Komga_demo.

(** ** Vocabulary of the statements *)

Module Wire.
Import Paperback.

(** The request the server receives for a request built without headers,
    once the interceptor has injected the stored [authorization]. *)
Definition get (authorization url : string) (param : option string)
  : Request :=
  createRequestObject url "GET" param None
    (Some (<["authorization" := authorization]> ∅)).

(** The page index a cursor stands for; no cursor is page 0. *)
Definition cursor_page (metadata : option Cursor) : N :=
  match metadata with
  | Some m => page m
  | None => 0%N
  end.

(** The query string of a search for page [p]. *)
Definition search_query (searchQuery : SearchRequest) (p : N) : string :=
  match search_title searchQuery with
  | Some t =>
      "?page=" +:+ Js.ToString p +:+ "&size=40&search="
      +:+ Js.encodeURIComponent t
  | None => "?page=" +:+ Js.ToString p +:+ "&size=40"
  end.

(** The query string of the paged section endpoints for page [p]. *)
Definition page_query (p : N) : string :=
  "?page=" +:+ Js.ToString p +:+ "&size=40".

(** The connectivity test of the settings form, as the server receives
    it: it carries the authorization derived from the submitted fields. *)
Definition test (form : Form) : Request :=
  createRequestObject
    (Komga.createKomgaAPI (serverAddress form) +:+ "/series/") "GET"
    (Some "?size=1") (Some true)
    (Some {["authorization" :=
              Komga.createAuthorizationString (serverUsername form)
                (serverPassword form)]}).

(** The store once the three raw fields of [form] are written to it. *)
Definition with_fields (form : Form) (st : gmap string string)
  : gmap string string :=
  <["serverPassword" := serverPassword form]>
    (<["serverUsername" := serverUsername form]>
       (<["serverAddress" := serverAddress form]> st)).

(** The world after [request] has been handed to the server. *)
Definition sent (w : World) (request : Request) : World :=
  {| state := state w; events := events w ++ [Dispatched request] |}.

(** The batches of ids the update callback has received, oldest first. *)
Definition notified (w : World) : list (list Value) :=
  flat_map (fun e =>
              match e with
              | UpdatesFound updates => [ids updates]
              | Dispatched _ => []
              end) (events w).

(** The requests handed to the server, oldest first. *)
Definition dispatched (w : World) : list Request :=
  flat_map (fun e =>
              match e with
              | Dispatched request => [request]
              | UpdatesFound _ => []
              end) (events w).

(** The request of the update poll for page [p]. *)
Definition updated (authorization komgaAPI : string) (p : N) : Request :=
  get authorization (komgaAPI +:+ "/series/updated/") (Some (page_query p)).

(** The tile of a series, in the words of the listing contract: the
    entry's id, its metadata title as title text, the thumbnail of the
    series as image, and the id as subtitle. *)
Definition tile (komgaAPI : string) (entry : Serie) : MangaTile :=
  {| tile_id := serie_id entry;
     tile_title := {| text := title (metadata entry) |};
     image := komgaAPI +:+ "/series/" +:+ serie_id entry +:+ "/thumbnail";
     subtitleText := {| text := "id: " +:+ serie_id entry |} |}.

(** A listing: the tiles of the entries in order, and the cursor [next]
    exactly when there is a tile. *)
Definition listing_at (komgaAPI : string) (next : N) (content : list Serie)
  : PagedResults :=
  {| results := map (tile komgaAPI) content;
     paged_metadata :=
       match content with
       | [] => None
       | _ :: _ => Some {| page := next |}
       end |}.

(** The listing contract for page [p]: the cursor is the integer
    [p + 1]. *)
Definition listing (komgaAPI : string) (p : N) (content : list Serie)
  : PagedResults :=
  listing_at komgaAPI (p + 1) content.

End Wire.

(** ** Scenarios

    Concrete worlds, servers and inputs on which the statements below are
    exercised. *)

Module Scenario.
Import Paperback.

(** A configured adapter: both derived settings are stored. *)
Definition configured : World :=
  {| state :=
       <["komgaAPI" := "http://komga/api/v1"]>
         (<["authorization" := "Basic b2xkOm9sZA=="]>
            (<["serverAddress" := "http://komga"]>
               (<["serverUsername" := "old"]>
                  (<["serverPassword" := "old"]> ∅))));
     events := [] |}.

Definition serie_of (serieId direction : string) (modified : Z) : Serie :=
  {| serie_id := serieId;
     metadata := {| title := "Title of " +:+ serieId;
                    readingDirection := direction;
                    lastModified := Some modified |} |}.

(** Forty series, the size of a full page. *)
Definition full_page : list Serie :=
  map (fun i => serie_of ("S" +:+ pretty i) "LEFT_TO_RIGHT" 2000)
    (seq 0 40).

(** A server whose series listings have one full page: page 0 of every
    listing holds [full_page], every later page is empty. *)
Definition one_page_server (request : Request) : Outcome Response :=
  if String.eqb (default "" (param request)) "?page=0&size=40"
  then Resolved {| status := 200; data := SeriesPage full_page |}
  else Resolved {| status := 200; data := SeriesPage [] |}.

(** A server with one book of two pages, a WebP image and a file of an
    unsupported type, in a series read as [direction]. *)
Definition book_server (direction : string) (request : Request)
  : Outcome Response :=
  if String.eqb (url request) "http://komga/api/v1/books/B1/pages"
  then Resolved
         {| status := 200;
            data := BookPages
                      [ {| number := 1; mediaType := "image/webp" |};
                        {| number := 2;
                           mediaType := "application/octet-stream" |} ] |}
  else Resolved {| status := 200;
                   data := SerieBody (serie_of "M1" direction 2000) |}.

(** The settings form of a user who moves to another server. *)
Definition new_form : Form :=
  {| serverAddress := "http://new";
     serverUsername := "user";
     serverPassword := "secret" |}.

(** A server that answers every request with [code]. *)
Definition status_server (code : N) (request : Request) : Outcome Response :=
  Resolved {| status := code; data := SeriesPage [] |}.

(** A server that cannot be reached. *)
Definition down_server (request : Request) : Outcome Response :=
  Rejected "AsyncOperationTimedOutError".

(** A server whose "updated" listing has one entry, series "A" modified at
    time 2000, followed by an empty page. *)
Definition updated_server (request : Request) : Outcome Response :=
  if String.eqb (default "" (param request)) "?page=0&size=40"
  then Resolved {| status := 200;
                   data := SeriesPage [serie_of "A" "LEFT_TO_RIGHT" 2000] |}
  else Resolved {| status := 200; data := SeriesPage [] |}.

End Scenario.

(** ** Series and books in full

    The detail operations of release 1.1.3 read more of a series than the
    listings do, and they read books.  A JSON number that is handed on
    untouched is held as the rational it denotes. *)

Module Library.
Import Paperback.
Local Open Scope promise_scope.

Record Author : Type := {
  author_name : string;
  author_role : string
}.

Record BooksMetadata : Type := {
  authors : list Author;
  books_summary : string
}.

Record SeriesMetadata : Type := {
  series_title : string;
  series_status : string;
  language : string;
  summary : string;
  genres : list string;
  series_tags : list string;
  series_lastModified : string
}.

Record Series : Type := {
  series_metadata : SeriesMetadata;
  booksMetadata : BooksMetadata
}.

Record BookMetadata : Type := {
  book_number : string;
  numberSort : QArith_base.Q;
  book_title : string
}.

(** A book; [fileLastModified] is held as the date
    [new Date(book.fileLastModified)] evaluates to. *)
Record Book : Type := {
  book_id : string;
  book_metadata : BookMetadata;
  size : string;
  fileLastModified : Js.Date
}.

(** The parsed body of a response: a series, or a page of books (an
    object with a [content] array). *)
Inductive Content : Type :=
| SeriesObject (series : Series)
| BookPage (content : list Book).

Record Reply : Type := {
  reply_status : N;
  reply_data : Content
}.

Record Tag : Type := createTag {
  tag_id : string;
  tag_label : string
}.

Record TagSection : Type := createTagSection {
  section_id : string;
  section_label : string;
  section_tags : list Tag
}.

Record Manga : Type := createManga {
  manga_id : string;
  titles : list string;
  manga_image : string;
  rating : N;
  manga_status : MangaStatus;
  langFlag : string;
  artist : string;
  author : string;
  desc : string;
  manga_tags : list TagSection;
  lastUpdate : string
}.

(** A language code of the host; [None] is [undefined]. *)
Record Chapter : Type := createChapter {
  chap_id : string;
  chap_mangaId : string;
  chapNum : QArith_base.Q;
  langCode : option string;
  chap_name : string;
  chap_time : Js.Date
}.

(** [result.metadata] and [result.booksMetadata], read: only a series has
    the two objects; [property] is the first property read from
    [result.metadata]. *)
Definition series_of (property : string) (result : Content)
  : Promise Series :=
  match result with
  | SeriesObject series => resolve series
  | BookPage _ =>
      throw ("Cannot read properties of undefined (reading '"
             +:+ property +:+ "')")
  end.

(** [result.content], iterated: only a page of books has the array. *)
Definition books_of (result : Content) : Promise (list Book) :=
  match result with
  | BookPage content => resolve content
  | SeriesObject _ => throw "result.content is not iterable"
  end.

(** The body of the loop over [booksMetadata.authors], on the pair of the
    arrays [authors] and [artists]. *)
Definition credit (found : list string * list string) (entry : Author)
  : list string * list string :=
  let '(authors, artists) := found in
  let authors :=
    if String.eqb (author_role entry) "writer"
    then (authors ++ [author_name entry])%list else authors in
  let artists :=
    if String.eqb (author_role entry) "penciller"
    then (artists ++ [author_name entry])%list else artists in
  (authors, artists).

Section Requests.

Variable net : Request -> Outcome Reply.

(** The table [reverseLangCode] of [./Languages], a file that is not part
    of the sources at hand: the code of a language name, if it has one. *)
Variable reverseLangCode : string -> option string.

(** [requestManager.schedule], as in [Komga.schedule], for the replies of
    this module. *)
Definition schedule (request : Request) (priority : N) : Promise Reply :=
  let* request' := Komga.KomgaRequestInterceptor.interceptRequest request in
  emit (Dispatched request') ;;
  let* response := (fun w => (net request', w)) in
  resolve response.

Definition getMangaDetails (mangaId : string) : Promise Manga :=
  let* komgaAPI := Komga.getKomgaAPI in
  let request :=
    createRequestObject (komgaAPI +:+ "/series/" +:+ mangaId +:+ "/") "GET"
      None None None in
  let* response := schedule request 1 in
  let* result := series_of "genres" (reply_data response) in
  let metadata := series_metadata result in
  let booksMetadata := booksMetadata result in
  let tagSections :=
    [createTagSection "0" "genres"
       (map (fun elem => createTag elem elem) (genres metadata));
     createTagSection "1" "tags"
       (map (fun elem => createTag elem elem) (series_tags metadata))] in
  let '(authors, artists) :=
    fold_left credit (authors booksMetadata) ([], []) in
  resolve
    (createManga mangaId [series_title metadata]
       (komgaAPI +:+ "/series/" +:+ mangaId +:+ "/thumbnail") 5
       (Komga.parseMangaStatus (series_status metadata))
       (language metadata)
       (Js.join ", " artists) (Js.join ", " authors)
       (if String.eqb (summary metadata) "" then books_summary booksMetadata
        else summary metadata)
       tagSections (series_lastModified metadata)).

Definition getChapters (mangaId : string) : Promise (list Chapter) :=
  let* komgaAPI := Komga.getKomgaAPI in
  let request :=
    createRequestObject (komgaAPI +:+ "/series/" +:+ mangaId +:+ "/books")
      "GET" (Some "?unpaged=true&media_status=READY") None None in
  let* response := schedule request 1 in
  let result := reply_data response in
  let requestSerie :=
    createRequestObject (komgaAPI +:+ "/series/" +:+ mangaId +:+ "/") "GET"
      None None None in
  let* responseSerie := schedule requestSerie 1 in
  let* resultSerie := series_of "language" (reply_data responseSerie) in
  let languageCode :=
    match reverseLangCode (language (series_metadata resultSerie)) with
    | Some code => Some code
    | None => reverseLangCode "_unknown"
    end in
  let* content := books_of result in
  let chapters :=
    Komga.for_push content (fun book =>
      createChapter (book_id book) mangaId
        (numberSort (book_metadata book)) languageCode
        (book_number (book_metadata book) +:+ " - "
         +:+ book_title (book_metadata book) +:+ " (" +:+ size book +:+ ")")
        (fileLastModified book)) in
  resolve chapters.

End Requests.

End Library.

(** ** The home page

    [getHomePageSections] hands its sections to a callback and fetches the
    two listings side by side.  The sections the callback receives are
    returned here next to the outcome of the call, oldest first; the order
    in which the two fetches settle is a parameter. *)

Module Home.
Import Paperback.
Local Open Scope promise_scope.

(** [createHomeSection]; [items] is [None] until it is assigned. *)
Record HomeSection : Type := createHomeSection {
  home_id : string;
  home_title : string;
  view_more : bool;
  items : option (list MangaTile)
}.

Record HomeRun : Type := {
  callbacks : list HomeSection;
  outcome : Outcome unit
}.

(** A promise seen once it has settled. *)
Definition settle {A : Type} (p : Promise A) : Promise (Outcome A) :=
  fun w => let '(o, w') := p w in (Resolved o, w').

(** The [then] continuation of the fetch of [section]: the section with
    its tiles, handed to the callback, or the rejection of the fetch. *)
Definition populate (komgaAPI : string) (section : HomeSection)
  (settled : Outcome Response) : Outcome HomeSection :=
  match settled with
  | Rejected message => Rejected message
  | Resolved data =>
      match Paperback.data data with
      | SeriesPage content =>
          let tiles :=
            Komga.for_push content (fun serie =>
              createMangaTile (serie_id serie)
                (createIconText (title (metadata serie)))
                (komgaAPI +:+ "/series/" +:+ serie_id serie +:+ "/thumbnail")
                (createIconText ("id: " +:+ serie_id serie))) in
          Resolved (createHomeSection (home_id section) (home_title section)
                      (view_more section) (Some tiles))
      | _ => Rejected "result.content is not iterable"
      end
  end.

(** [Promise.all]: the first rejection in the order of settling. *)
Fixpoint all (settled : list (Outcome HomeSection)) : Outcome unit :=
  match settled with
  | [] => Resolved tt
  | Resolved _ :: rest => all rest
  | Rejected message :: _ => Rejected message
  end.

(** The sections the continuations hand to the callback. *)
Fixpoint populated (settled : list (Outcome HomeSection))
  : list HomeSection :=
  match settled with
  | [] => []
  | Resolved section :: rest => section :: populated rest
  | Rejected _ :: rest => populated rest
  end.

Section Requests.

Variable net : Request -> Outcome Response.

(** The loop over the sections: each one is handed to the callback empty
    and its fetch is scheduled. *)
Fixpoint start (komgaAPI : string) (sections : list HomeSection)
  : Promise (list (Outcome HomeSection)) :=
  match sections with
  | [] => resolve []
  | section :: rest =>
      let request :=
        createRequestObject (komgaAPI +:+ "/series/" +:+ home_id section)
          "GET" (Some "?page=0&size=20") None None in
      let* settled := settle (Komga.schedule net request 1) in
      let* others := start komgaAPI rest in
      resolve (populate komgaAPI section settled :: others)
  end.

Definition getHomePageSections (reversed : bool) (w : World)
  : HomeRun * World :=
  match state w !! "komgaAPI" with
  | None =>
      ({| callbacks :=
            [createHomeSection "unset" "Server unset in source settings"
               false None];
          outcome := Resolved tt |}, w)
  | Some komgaAPI =>
      let sections :=
        [createHomeSection "new" "Recently added series" true None;
         createHomeSection "updated" "Recently updated series" true None] in
      match start komgaAPI sections w with
      | (Resolved settled, w') =>
          let settled := if reversed then rev settled else settled in
          ({| callbacks := (sections ++ populated settled)%list;
              outcome := all settled |}, w')
      | (Rejected message, w') =>
          ({| callbacks := sections; outcome := Rejected message |}, w')
      end
  end.

End Requests.

End Home.

(** ** The settings of the first revision

    The first revision has no connectivity test: the form is stored as it
    is, and the authorization is derived from the stored fields on every
    call. *)

Module Komga_demo_settings.
Import Paperback.
Local Open Scope promise_scope.

Record TextField : Type := createTextFieldObject {
  field_id : string;
  field_label : string;
  placeholderText : string;
  field_value : option string
}.

Record UserForm : Type := createUserForm {
  formElements : list TextField
}.

(** [username + ":" + password]: a [null] prints as "null". *)
Definition getAuthorizationString : Promise string :=
  let* username := retrieve "serverUsername" in
  let* password := retrieve "serverPassword" in
  resolve ("Basic "
           +:+ Js.base64 (default "null" username +:+ ":"
                          +:+ default "null" password)).

Definition getSourceMenuItemForm (itemId : string) : Promise UserForm :=
  let* address := retrieve "serverAddress" in
  let* username := retrieve "serverUsername" in
  let* password := retrieve "serverPassword" in
  resolve
    (createUserForm
       [createTextFieldObject "serverAddress" "Server URL"
          "http://127.0.0.1:8080" address;
        createTextFieldObject "serverUsername" "Username" "AnimeLover420"
          username;
        createTextFieldObject "serverPassword" "Password"
          "Some Super Secret Password" password]).

Definition submitSourceMenuItemForm (itemId : string) (form : Form)
  : Promise unit :=
  for_each form_keys (fun key => store key (form_get form key)) ;;
  resolve tt.

End Komga_demo_settings.

(** ** The authorization string on strings of any code unit

    A JavaScript string is a sequence of 16-bit code units.  The modules
    above hold the strings of the settings within Latin-1; here
    [createAuthorizationString] is given once more on the code units
    themselves, where [Buffer.from(s, 'binary')] keeps one byte for each
    code unit, its low byte. *)

Module Utf16.

(** The code units of a Latin-1 string. *)
Definition units (s : string) : list N :=
  map N_of_ascii (list_ascii_of_string s).

(** [Buffer.from(s, 'binary')]. *)
Definition binary_bytes (s : list N) : list N :=
  map (fun unit => unit mod 256)%N s.

(** [createAuthorizationString] of release 1.1.3. *)
Definition createAuthorizationString (username password : list N) : string :=
  "Basic "
  +:+ Js.base64_bytes (binary_bytes (username ++ units ":" ++ password)%list).

End Utf16.

(** ** Vocabulary of the further statements *)

Module Report.
Import Paperback.

(** A computation that never writes the store. *)
Definition reads_only {A : Type} (p : Promise A) : Prop :=
  forall w, state (snd (p w)) = state w.

(** The position of a character in a string, counted from [i]. *)
Fixpoint index_of (c : ascii) (s : string) (i : N) : option N :=
  match s with
  | EmptyString => None
  | String d rest =>
      if Ascii.eqb c d then Some i else index_of c rest (i + 1)%N
  end.

(** The six bits a Base64 digit stands for. *)
Definition base64_value (c : ascii) : option N :=
  index_of c Js.base64_alphabet 0.

End Report.

(** ** Further scenarios *)

Module Cases.
Import Paperback.

(** A store that holds nothing yet. *)
Definition fresh : World := {| state := ∅; events := [] |}.

(** A store with a server URL and no authorization. *)
Definition half_configured : World :=
  {| state := <["komgaAPI" := "http://komga/api/v1"]> ∅; events := [] |}.

(** A server whose "updated" listing starts with a recent series followed
    by one modified at time 500. *)
Definition stale_server (request : Request) : Outcome Response :=
  Resolved
    {| status := 200;
       data := SeriesPage [Scenario.serie_of "A" "LEFT_TO_RIGHT" 2000;
                           Scenario.serie_of "B" "LEFT_TO_RIGHT" 500] |}.

(** A server every page of which holds the same recent series. *)
Definition endless_server (request : Request) : Outcome Response :=
  Resolved
    {| status := 200;
       data := SeriesPage [Scenario.serie_of "A" "LEFT_TO_RIGHT" 2000] |}.


(** A server with one new and one updated series. *)
Definition home_server (request : Request) : Outcome Response :=
  if String.eqb (url request) "http://komga/api/v1/series/new"
  then Resolved
         {| status := 200;
            data := SeriesPage [Scenario.serie_of "N" "LEFT_TO_RIGHT" 2000] |}
  else Resolved
         {| status := 200;
            data := SeriesPage [Scenario.serie_of "U" "WEBTOON" 3000] |}.

(** The same server with its "new" listing out of order. *)
Definition half_server (request : Request) : Outcome Response :=
  if String.eqb (url request) "http://komga/api/v1/series/new"
  then Rejected "AsyncOperationTimedOutError"
  else home_server request.

(** A finished series with two writers, a penciller and a colorist, no
    summary of its own, in a language the table knows. *)
Definition saga : Library.Series :=
  {| Library.series_metadata :=
       {| Library.series_title := "Saga";
          Library.series_status := "ENDED";
          Library.language := "fr";
          Library.summary := "";
          Library.genres := ["space opera"];
          Library.series_tags := ["color"; "war"];
          Library.series_lastModified := "2021-05-01T10:00:00Z" |};
     Library.booksMetadata :=
       {| Library.authors :=
            [ {| Library.author_name := "Ann";
                 Library.author_role := "writer" |};
              {| Library.author_name := "Bo";
                 Library.author_role := "penciller" |};
              {| Library.author_name := "Cy";
                 Library.author_role := "colorist" |};
              {| Library.author_name := "Di";
                 Library.author_role := "writer" |} ];
          Library.books_summary := "Two soldiers flee a war." |} |}.

Definition volume (n : Z) (numbered bookId : string) : Library.Book :=
  {| Library.book_id := bookId;
     Library.book_metadata :=
       {| Library.book_number := numbered;
          Library.numberSort := QArith_base.Qmake n 1;
          Library.book_title := "Volume " +:+ numbered |};
     Library.size := "12 MiB";
     Library.fileLastModified := Some 1000%Z |}.

(** A server with the series [saga] and its two books. *)
Definition library_server (request : Request) : Outcome Library.Reply :=
  if String.eqb (url request) "http://komga/api/v1/series/M1/books"
  then Resolved
         {| Library.reply_status := 200;
            Library.reply_data :=
              Library.BookPage [volume 1 "1" "B1"; volume 2 "2" "B2"] |}
  else Resolved
         {| Library.reply_status := 200;
            Library.reply_data := Library.SeriesObject saga |}.

(** The same server without the series endpoint. *)
Definition books_only_server (request : Request) : Outcome Library.Reply :=
  if String.eqb (url request) "http://komga/api/v1/series/M1/books"
  then library_server request
  else Rejected "AsyncOperationTimedOutError".

(** A table of language codes that knows French and the unknown. *)
Definition codes (name : string) : option string :=
  if String.eqb name "fr" then Some "france"
  else if String.eqb name "_unknown" then Some "_unknown"
  else None.

End Cases.

(** ** Facts about the runtime *)

Section JsFacts.

Lemma slice_last_slash (s : string) :
  Js.slice_last s = "/" <-> exists p, s = p +:+ "/".
Proof.
  induction s as [|c s IH]; simpl.
  - split; [discriminate|]. intros [[|? ?] H]; discriminate.
  - destruct s as [|c' s'].
    + split.
      * intros H. exists "". simpl. exact H.
      * intros [[|a p] H]; simpl in H; [exact H|].
        destruct p; discriminate.
    + rewrite IH. split.
      * intros [p ->]. exists (String c p). reflexivity.
      * intros [[|a p] H]; simpl in H; [discriminate|].
        injection H as _ H. exists p. exact H.
Qed.

Lemma append_assoc (a b c : string) : (a +:+ b) +:+ c = a +:+ b +:+ c.
Proof.
  induction a as [|x a IH]; [done|].
  change (String x ((a +:+ b) +:+ c) = String x (a +:+ b +:+ c)).
  by rewrite IH.
Qed.

Lemma for_push_app {A B : Type} (f : A -> B) (l : list A) (out : list B) :
  fold_left (fun out x => (out ++ [f x])%list) l out = (out ++ map f l)%list.
Proof.
  revert out. induction l as [|x l IH]; intros out; simpl.
  - by rewrite app_nil_r.
  - rewrite IH. by rewrite <- app_assoc.
Qed.

Lemma for_push_map {A B : Type} (f : A -> B) (l : list A) :
  Komga.for_push l f = map f l.
Proof. unfold Komga.for_push. by rewrite for_push_app. Qed.

Lemma includes_In (l : list string) (x : string) :
  Js.includes l x = true <-> In x l.
Proof.
  unfold Js.includes. rewrite existsb_exists. split.
  - intros [y [Hy Heq]]. apply String.eqb_eq in Heq. by subst.
  - intros H. exists x. split; [done|]. apply String.eqb_refl.
Qed.

Lemma page_size_string : Js.ToString Komga.PAGE_SIZE = "40".
Proof. reflexivity. Qed.

(** Below 2^53 the successor is computed exactly. *)
Lemma add_one_exact (p : N) : (p < 2 ^ 53)%N -> Js.add p 1 = (p + 1)%N.
Proof.
  intros H. unfold Js.add, Js.round_double.
  destruct (N.ltb_spec (p + 1) (2 ^ 53)) as [|Hge]; [done|].
  assert (p + 1 = 2 ^ 53)%N as -> by lia.
  by vm_compute.
Qed.

End JsFacts.

(** ** Pure functions of the adapter *)

Section Pure.
Import Paperback Komga.

(** C7. An address that ends in "/" gets "api/v1" appended; an address
    that does not end in "/" gets "/api/v1" appended. *)
Theorem createKomgaAPI_normalizes (serverAddress : string) :
  ((exists p, serverAddress = p +:+ "/") ->
   createKomgaAPI serverAddress = serverAddress +:+ "api/v1")
  /\ (~ (exists p, serverAddress = p +:+ "/") ->
      createKomgaAPI serverAddress = serverAddress +:+ "/api/v1").
Proof.
  unfold createKomgaAPI.
  destruct (String.eqb_spec (Js.slice_last serverAddress) "/") as [E|E].
  - split; [done|]. intros H. destruct H. by apply slice_last_slash.
  - split; [|done]. intros H. destruct E. by apply slice_last_slash.
Qed.

(** C8. "ENDED" is completed; "ONGOING", "ABANDONED" and "HIATUS" are
    ongoing; every other string is ongoing too, so the function is total
    with no third value. *)
Theorem parseMangaStatus_total :
  parseMangaStatus "ENDED" = COMPLETED
  /\ parseMangaStatus "ONGOING" = ONGOING
  /\ parseMangaStatus "ABANDONED" = ONGOING
  /\ parseMangaStatus "HIATUS" = ONGOING
  /\ (forall komgaStatus : string,
        ~ In komgaStatus ["ENDED"; "ONGOING"; "ABANDONED"; "HIATUS"] ->
        parseMangaStatus komgaStatus = ONGOING)
  /\ (forall komgaStatus : string,
        parseMangaStatus komgaStatus = COMPLETED <-> komgaStatus = "ENDED").
Proof.
  repeat split; try reflexivity.
  - intros komgaStatus H. unfold parseMangaStatus.
    destruct (String.eqb_spec komgaStatus "ENDED") as [->|_].
    + destruct H. by left.
    + by repeat case_match.
  - unfold parseMangaStatus.
    destruct (String.eqb_spec komgaStatus "ENDED") as [->|_]; [done|].
    by repeat case_match.
  - intros ->. reflexivity.
Qed.

(** The first revision normalizes the stored address the same way. *)
Lemma getKomgaAPI_demo_normalizes (w : World) (serverAddress : string) :
  state w !! "serverAddress" = Some serverAddress ->
  Komga_demo.getKomgaAPI w = (Resolved (createKomgaAPI serverAddress), w).
Proof.
  intros H. unfold Komga_demo.getKomgaAPI, await, retrieve. by rewrite H.
Qed.

End Pure.

(** ** The request interceptor *)

Section Interceptor.
Import Paperback Komga.

(** C3. A request that carries an authorization header is returned as it
    is, whatever the store holds; a request without one gets the stored
    authorization string, and the call fails with the "Unset credentials"
    error when none is stored; a response is returned as it is. *)
Theorem interceptor_contract (request : Request) (w : World) :
  (forall h a,
      headers request = Some h -> h !! "authorization" = Some a ->
      KomgaRequestInterceptor.interceptRequest request w
      = (Resolved request, w))
  /\ (default ∅ (headers request) !! "authorization" = None ->
      match state w !! "authorization" with
      | Some stored =>
          KomgaRequestInterceptor.interceptRequest request w
          = (Resolved
               (createRequestObject (url request) (method request)
                  (param request) (incognito request)
                  (Some (<["authorization" := stored]>
                           (default ∅ (headers request))))), w)
      | None =>
          KomgaRequestInterceptor.interceptRequest request w
          = (Rejected "Unset credentials in source settings", w)
      end)
  /\ (forall response,
        KomgaRequestInterceptor.interceptResponse response w
        = (Resolved response, w)).
Proof.
  split; [|split].
  - intros h a Hh Ha.
    unfold KomgaRequestInterceptor.interceptRequest.
    rewrite Hh. simpl. rewrite Hh. simpl. by rewrite Ha.
  - intros Hnone.
    unfold KomgaRequestInterceptor.interceptRequest,
      KomgaRequestInterceptor.getAuthorizationString, await, retrieve.
    destruct (headers request) as [h|] eqn:Hh; simpl in *.
    + rewrite Hh. simpl. rewrite Hnone.
      by destruct (state w !! "authorization").
    + rewrite lookup_empty.
      by destruct (state w !! "authorization").
  - done.
Qed.

End Interceptor.

(** ** Running the catalogue operations *)

Section Catalog.
Import Paperback Komga.

Variable net : Request -> Outcome Response.

Lemma getKomgaAPI_run (w : World) (api : string) :
  state w !! "komgaAPI" = Some api -> getKomgaAPI w = (Resolved api, w).
Proof. intros H. unfold getKomgaAPI, await, retrieve. by rewrite H. Qed.

(** A request built without headers reaches the server with the stored
    authorization; the outcome of the call is the server's. *)
Lemma schedule_run (w : World) (auth u : string) (p : option string) :
  state w !! "authorization" = Some auth ->
  schedule net (createRequestObject u "GET" p None None) 1 w
  = (net (Wire.get auth u p), Wire.sent w (Wire.get auth u p)).
Proof.
  intros H.
  unfold schedule, await, KomgaRequestInterceptor.interceptRequest,
    KomgaRequestInterceptor.getAuthorizationString, await, retrieve.
  simpl. rewrite lookup_empty. rewrite H. simpl.
  unfold KomgaRequestInterceptor.set_headers, Wire.get. simpl.
  by destruct (net _).
Qed.

Lemma search_query_built (searchQuery : SearchRequest) (p : N) :
  (let paramsList :=
     ["page=" +:+ Js.ToString p; "size=" +:+ Js.ToString PAGE_SIZE] in
   let paramsList :=
     match search_title searchQuery with
     | Some t => (paramsList ++ ["search=" +:+ Js.encodeURIComponent t])%list
     | None => paramsList
     end in
   if (0 <? List.length paramsList)%nat
   then "?" +:+ Js.join "&" paramsList else "")
  = Wire.search_query searchQuery p.
Proof.
  unfold Wire.search_query. rewrite page_size_string.
  destruct (search_title searchQuery); simpl;
    by rewrite ?append_assoc.
Qed.

Lemma page_query_built (p : N) :
  "?page=" +:+ Js.ToString p +:+ "&size=" +:+ Js.ToString PAGE_SIZE
  = Wire.page_query p.
Proof. reflexivity. Qed.

Lemma listing_built (api : string) (next : N) (content : list Serie)
  (tiles : list MangaTile) :
  tiles = map (Wire.tile api) content ->
  createPagedResults tiles
    (if (List.length tiles =? 0)%nat then None else Some {| page := next |})
  = Wire.listing_at api next content.
Proof. intros ->. by destruct content. Qed.

(** Below 2^53 the adapter's cursor is the one of the listing contract. *)
Lemma listing_exact (api : string) (p : N) (content : list Serie) :
  (p < 2 ^ 53)%N ->
  Wire.listing_at api (Js.add p 1) content = Wire.listing api p content.
Proof. intros H. unfold Wire.listing. by rewrite add_one_exact. Qed.

Lemma searchRequest_run (w : World) (api auth : string)
  (searchQuery : SearchRequest) (metadata : option Cursor)
  (response : Response) (content : list Serie) :
  state w !! "komgaAPI" = Some api ->
  state w !! "authorization" = Some auth ->
  net (Wire.get auth (api +:+ "/series")
         (Some (Wire.search_query searchQuery (Wire.cursor_page metadata))))
  = Resolved response ->
  data response = SeriesPage content ->
  searchRequest net searchQuery metadata w
  = (Resolved
       (Wire.listing_at api (Js.add (Wire.cursor_page metadata) 1) content),
     Wire.sent w
       (Wire.get auth (api +:+ "/series")
          (Some (Wire.search_query searchQuery
                   (Wire.cursor_page metadata))))).
Proof.
  intros Hapi Hauth Hnet Hdata.
  unfold searchRequest, await at 1. rewrite (getKomgaAPI_run w api Hapi).
  fold (Wire.cursor_page metadata).
  rewrite search_query_built.
  unfold await at 1. rewrite (schedule_run w auth _ _ Hauth), Hnet.
  rewrite Hdata. unfold await, content_of, resolve.
  f_equal. f_equal. apply listing_built. apply for_push_map.
Qed.

Lemma getViewMoreItems_run (w : World) (api auth homepageSectionId : string)
  (metadata : option Cursor) (response : Response) (content : list Serie) :
  state w !! "komgaAPI" = Some api ->
  state w !! "authorization" = Some auth ->
  net (Wire.get auth (api +:+ "/series/" +:+ homepageSectionId)
         (Some (Wire.page_query (Wire.cursor_page metadata))))
  = Resolved response ->
  data response = SeriesPage content ->
  getViewMoreItems net homepageSectionId metadata w
  = (Resolved
       (Wire.listing_at api (Js.add (Wire.cursor_page metadata) 1) content),
     Wire.sent w
       (Wire.get auth (api +:+ "/series/" +:+ homepageSectionId)
          (Some (Wire.page_query (Wire.cursor_page metadata))))).
Proof.
  intros Hapi Hauth Hnet Hdata.
  unfold getViewMoreItems, await at 1. rewrite (getKomgaAPI_run w api Hapi).
  fold (Wire.cursor_page metadata).
  rewrite page_query_built.
  unfold await at 1. rewrite (schedule_run w auth _ _ Hauth), Hnet.
  rewrite Hdata. unfold await, content_of, resolve.
  f_equal. f_equal. apply listing_built. apply for_push_map.
Qed.

End Catalog.

(** ** Listings: search and view-more *)

Section Listings.
Import Paperback Komga.

Variable net : Request -> Outcome Response.

(** C4, amended.  A search for page [p] whose response holds a non-empty
    content list returns the cursor [p + 1] as the number the adapter
    computes: the integer [p + 1] for every [p] below 2^53, the double
    nearest to it above.  A search whose response holds an empty content
    list returns no cursor. *)
Theorem searchRequest_cursor (w : World) (api auth : string)
  (searchQuery : SearchRequest) (metadata : option Cursor)
  (response : Response) (content : list Serie) :
  state w !! "komgaAPI" = Some api ->
  state w !! "authorization" = Some auth ->
  net (Wire.get auth (api +:+ "/series")
         (Some (Wire.search_query searchQuery (Wire.cursor_page metadata))))
  = Resolved response ->
  data response = SeriesPage content ->
  exists paged,
    fst (searchRequest net searchQuery metadata w) = Resolved paged
    /\ List.length (results paged) = List.length content
    /\ (content <> [] ->
        paged_metadata paged
        = Some {| page := Js.add (Wire.cursor_page metadata) 1 |}
        /\ ((Wire.cursor_page metadata < 2 ^ 53)%N ->
            paged_metadata paged
            = Some {| page := Wire.cursor_page metadata + 1 |}))
    /\ (content = [] -> paged_metadata paged = None).
Proof.
  intros Hapi Hauth Hnet Hdata.
  rewrite (searchRequest_run net w api auth _ _ _ _ Hapi Hauth Hnet Hdata).
  eexists. split; [reflexivity|]. simpl. split; [apply length_map|].
  split; [|by intros ->].
  intros Hcontent. destruct content as [|entry rest]; [done|].
  split; [done|]. intros Hp. by rewrite add_one_exact.
Qed.

(** C9, amended.  On responses with the same content list, view-more
    returns the same paged results as a search without title filter: the
    tiles of the entries in order and, exactly when the list is not empty,
    the cursor [page + 1] as the number the adapter computes.  Below 2^53
    that is the listing contract, with the integer [page + 1]. *)
Theorem getViewMoreItems_as_searchRequest (w : World)
  (api auth homepageSectionId : string) (metadata : option Cursor)
  (searched viewed : Response) (content : list Serie) :
  state w !! "komgaAPI" = Some api ->
  state w !! "authorization" = Some auth ->
  net (Wire.get auth (api +:+ "/series")
         (Some (Wire.search_query (createSearchRequest None)
                  (Wire.cursor_page metadata))))
  = Resolved searched ->
  data searched = SeriesPage content ->
  net (Wire.get auth (api +:+ "/series/" +:+ homepageSectionId)
         (Some (Wire.page_query (Wire.cursor_page metadata))))
  = Resolved viewed ->
  data viewed = SeriesPage content ->
  fst (getViewMoreItems net homepageSectionId metadata w)
  = fst (searchRequest net (createSearchRequest None) metadata w)
  /\ fst (getViewMoreItems net homepageSectionId metadata w)
     = Resolved
         (Wire.listing_at api (Js.add (Wire.cursor_page metadata) 1) content)
  /\ ((Wire.cursor_page metadata < 2 ^ 53)%N ->
      fst (getViewMoreItems net homepageSectionId metadata w)
      = Resolved (Wire.listing api (Wire.cursor_page metadata) content)).
Proof.
  intros Hapi Hauth Hs Hsd Hv Hvd.
  rewrite (searchRequest_run net w api auth _ _ _ _ Hapi Hauth Hs Hsd).
  rewrite (getViewMoreItems_run net w api auth _ _ _ _ Hapi Hauth Hv Hvd).
  split; [done|]. split; [done|].
  intros Hp. simpl. by rewrite listing_exact.
Qed.

End Listings.

(** With one full page on the server, the first search returns forty tiles
    and the cursor of page 1, and the search of page 1 returns no cursor. *)
Lemma searchRequest_cursor_witness :
  (exists paged,
      fst (Komga.searchRequest Scenario.one_page_server
             (Paperback.createSearchRequest None) None Scenario.configured)
      = Paperback.Resolved paged
      /\ List.length (Paperback.results paged) = 40%nat
      /\ Paperback.paged_metadata paged = Some {| Paperback.page := 1 |})
  /\ (exists paged,
         fst (Komga.searchRequest Scenario.one_page_server
                (Paperback.createSearchRequest None)
                (Some {| Paperback.page := 1 |}) Scenario.configured)
         = Paperback.Resolved paged
         /\ Paperback.paged_metadata paged = None).
Proof.
  split.
  - destruct (searchRequest_cursor Scenario.one_page_server
                Scenario.configured "http://komga/api/v1" "Basic b2xkOm9sZA=="
                (Paperback.createSearchRequest None) None
                {| Paperback.status := 200;
                   Paperback.data := Paperback.SeriesPage Scenario.full_page |}
                Scenario.full_page eq_refl eq_refl eq_refl eq_refl)
      as (paged & Hrun & Hlen & Hmore & _).
    exists paged. split; [exact Hrun|]. split; [exact Hlen|].
    apply Hmore; [discriminate | reflexivity].
  - destruct (searchRequest_cursor Scenario.one_page_server
                Scenario.configured "http://komga/api/v1" "Basic b2xkOm9sZA=="
                (Paperback.createSearchRequest None)
                (Some {| Paperback.page := 1 |})
                {| Paperback.status := 200;
                   Paperback.data := Paperback.SeriesPage [] |}
                [] eq_refl eq_refl eq_refl eq_refl)
      as (paged & Hrun & _ & _ & Hlast).
    exists paged. split; [exact Hrun|]. by apply Hlast.
Defined.

(** The "new" section of the one-page server lists what a search without
    title lists, on both pages. *)
Lemma getViewMoreItems_as_searchRequest_witness :
  fst (Komga.getViewMoreItems Scenario.one_page_server "new" None
         Scenario.configured)
  = fst (Komga.searchRequest Scenario.one_page_server
           (Paperback.createSearchRequest None) None Scenario.configured)
  /\ fst (Komga.getViewMoreItems Scenario.one_page_server "new" None
            Scenario.configured)
     = Paperback.Resolved
         (Wire.listing "http://komga/api/v1" 0 Scenario.full_page).
Proof.
  destruct (getViewMoreItems_as_searchRequest Scenario.one_page_server
              Scenario.configured "http://komga/api/v1" "Basic b2xkOm9sZA=="
              "new" None
              {| Paperback.status := 200;
                 Paperback.data := Paperback.SeriesPage Scenario.full_page |}
              {| Paperback.status := 200;
                 Paperback.data := Paperback.SeriesPage Scenario.full_page |}
              Scenario.full_page eq_refl eq_refl eq_refl eq_refl eq_refl
              eq_refl)
    as (Hsame & _ & Hexact).
  split; [exact Hsame|]. apply Hexact. reflexivity.
Defined.

(** At page 2^53 the sum [page + 1] is rounded back to 2^53: a search
    that finds a series there returns the cursor it was given, not the
    next integer. *)
Lemma searchRequest_cursor_counterexample :
  exists paged,
    fst (Komga.searchRequest Cases.endless_server
           (Paperback.createSearchRequest None)
           (Some {| Paperback.page := 2 ^ 53 |}) Scenario.configured)
    = Paperback.Resolved paged
    /\ Paperback.results paged <> []
    /\ Paperback.paged_metadata paged = Some {| Paperback.page := 2 ^ 53 |}
    /\ Paperback.paged_metadata paged
       <> Some {| Paperback.page := 2 ^ 53 + 1 |}.
Proof.
  eexists. split; [by vm_compute|]. by vm_compute.
Qed.

(** At page 2^53 view-more and search still agree, on a listing whose
    cursor is 2^53 again: not the listing contract, whose cursor is the
    next integer. *)
Lemma getViewMoreItems_as_searchRequest_counterexample :
  fst (Komga.getViewMoreItems Cases.endless_server "new"
         (Some {| Paperback.page := 2 ^ 53 |}) Scenario.configured)
  = fst (Komga.searchRequest Cases.endless_server
           (Paperback.createSearchRequest None)
           (Some {| Paperback.page := 2 ^ 53 |}) Scenario.configured)
  /\ fst (Komga.getViewMoreItems Cases.endless_server "new"
            (Some {| Paperback.page := 2 ^ 53 |}) Scenario.configured)
     = Paperback.Resolved
         (Wire.listing_at "http://komga/api/v1" (2 ^ 53)
            [Scenario.serie_of "A" "LEFT_TO_RIGHT" 2000])
  /\ fst (Komga.getViewMoreItems Cases.endless_server "new"
            (Some {| Paperback.page := 2 ^ 53 |}) Scenario.configured)
     <> Paperback.Resolved
          (Wire.listing "http://komga/api/v1" (2 ^ 53)
             [Scenario.serie_of "A" "LEFT_TO_RIGHT" 2000]).
Proof.
  split; [by vm_compute|]. split; [by vm_compute|]. by vm_compute.
Qed.

(** ** Chapter content *)

Section Chapters.
Import Paperback Komga.

Variable net : Request -> Outcome Response.

Lemma getChapterDetails_run (w : World) (api auth mangaId chapterId : string)
  (listed : Response) (pages : list Page) (parent : Response) (serie : Serie) :
  state w !! "komgaAPI" = Some api ->
  state w !! "authorization" = Some auth ->
  net (Wire.get auth (api +:+ "/books/" +:+ chapterId +:+ "/pages") None)
  = Resolved listed ->
  data listed = BookPages pages ->
  net (Wire.get auth (api +:+ "/series/" +:+ mangaId +:+ "/") None)
  = Resolved parent ->
  data parent = SerieBody serie ->
  fst (getChapterDetails net mangaId chapterId w)
  = Resolved
      {| chapter_id := chapterId;
         longStrip :=
           Js.includes ["VERTICAL"; "WEBTOON"]
             (readingDirection (metadata serie));
         chapter_mangaId := mangaId;
         chapter_pages :=
           map (fun entry =>
                  if Js.includes SUPPORTED_IMAGE_TYPES (mediaType entry)
                  then api +:+ "/books/" +:+ chapterId +:+ "/pages/"
                       +:+ Js.ToString (number entry)
                  else api +:+ "/books/" +:+ chapterId +:+ "/pages/"
                       +:+ Js.ToString (number entry) +:+ "?convert=png")
             pages |}.
Proof.
  intros Hapi Hauth Hl Hld Hp Hpd.
  unfold getChapterDetails, await at 1. rewrite (getKomgaAPI_run w api Hapi).
  unfold await at 1. rewrite (schedule_run net w auth _ _ Hauth), Hl, Hld.
  unfold await at 1, pages_of, resolve at 1.
  unfold await at 1. rewrite schedule_run with (auth := auth) by exact Hauth.
  rewrite Hp, Hpd. unfold await, metadata_of, resolve. simpl.
  rewrite for_push_map. do 2 f_equal.
  by destruct (orb _ _).
Qed.

(** C5. Every entry of the page list yields the page URL
    [{komgaAPI}/books/{chapterId}/pages/{number}]: as it is when the media
    type of the entry is one of the five supported ones, with
    [?convert=png] appended for any other media type. *)
Theorem getChapterDetails_page_urls (w : World)
  (api auth mangaId chapterId : string)
  (listed : Response) (pages : list Page) (parent : Response) (serie : Serie) :
  state w !! "komgaAPI" = Some api ->
  state w !! "authorization" = Some auth ->
  net (Wire.get auth (api +:+ "/books/" +:+ chapterId +:+ "/pages") None)
  = Resolved listed ->
  data listed = BookPages pages ->
  net (Wire.get auth (api +:+ "/series/" +:+ mangaId +:+ "/") None)
  = Resolved parent ->
  data parent = SerieBody serie ->
  exists details,
    fst (getChapterDetails net mangaId chapterId w) = Resolved details
    /\ List.length (chapter_pages details) = List.length pages
    /\ forall (i : nat) (entry : Page),
         pages !! i = Some entry ->
         exists pageUrl,
           chapter_pages details !! i = Some pageUrl
           /\ (In (mediaType entry)
                 ["image/jpeg"; "image/png"; "image/gif"; "image/webp";
                  "application/pdf"] ->
               pageUrl = api +:+ "/books/" +:+ chapterId +:+ "/pages/"
                         +:+ Js.ToString (number entry))
           /\ (~ In (mediaType entry)
                   ["image/jpeg"; "image/png"; "image/gif"; "image/webp";
                    "application/pdf"] ->
               pageUrl = api +:+ "/books/" +:+ chapterId +:+ "/pages/"
                         +:+ Js.ToString (number entry) +:+ "?convert=png").
Proof.
  intros Hapi Hauth Hl Hld Hp Hpd.
  rewrite (getChapterDetails_run w api auth mangaId chapterId _ _ _ _
             Hapi Hauth Hl Hld Hp Hpd).
  eexists. split; [reflexivity|]. cbn [chapter_pages].
  split; [apply length_map|].
  intros i entry Hi. eexists. split.
  - change (map ?f pages) with (f <$> pages).
    rewrite list_lookup_fmap, Hi. reflexivity.
  - cbn beta.
    destruct (Js.includes SUPPORTED_IMAGE_TYPES (mediaType entry)) eqn:E.
    + apply includes_In in E. split; [done|]. intros H. by destruct H.
    + split; [|done]. intros H. apply includes_In in H.
      unfold SUPPORTED_IMAGE_TYPES in E. congruence.
Qed.

(** C6. The chapter details are long-strip if and only if the reading
    direction of the series is "VERTICAL" or "WEBTOON". *)
Theorem getChapterDetails_longStrip (w : World)
  (api auth mangaId chapterId : string)
  (listed : Response) (pages : list Page) (parent : Response) (serie : Serie) :
  state w !! "komgaAPI" = Some api ->
  state w !! "authorization" = Some auth ->
  net (Wire.get auth (api +:+ "/books/" +:+ chapterId +:+ "/pages") None)
  = Resolved listed ->
  data listed = BookPages pages ->
  net (Wire.get auth (api +:+ "/series/" +:+ mangaId +:+ "/") None)
  = Resolved parent ->
  data parent = SerieBody serie ->
  exists details,
    fst (getChapterDetails net mangaId chapterId w) = Resolved details
    /\ (longStrip details = true <->
        readingDirection (metadata serie) = "VERTICAL"
        \/ readingDirection (metadata serie) = "WEBTOON").
Proof.
  intros Hapi Hauth Hl Hld Hp Hpd.
  rewrite (getChapterDetails_run w api auth mangaId chapterId _ _ _ _
             Hapi Hauth Hl Hld Hp Hpd).
  eexists. split; [reflexivity|]. cbn [longStrip]. rewrite includes_In.
  simpl. intuition congruence.
Qed.

End Chapters.

(** A book with a WebP page and a page of an unsupported type: the first
    URL has no query, the second asks for a PNG conversion. *)
Lemma getChapterDetails_page_urls_witness :
  exists details,
    fst (Komga.getChapterDetails (Scenario.book_server "WEBTOON") "M1" "B1"
           Scenario.configured)
    = Paperback.Resolved details
    /\ Paperback.chapter_pages details
       = ["http://komga/api/v1/books/B1/pages/1";
          "http://komga/api/v1/books/B1/pages/2?convert=png"].
Proof.
  destruct (getChapterDetails_page_urls (Scenario.book_server "WEBTOON")
              Scenario.configured "http://komga/api/v1" "Basic b2xkOm9sZA=="
              "M1" "B1"
              {| Paperback.status := 200;
                 Paperback.data :=
                   Paperback.BookPages
                     [ {| Paperback.number := 1;
                          Paperback.mediaType := "image/webp" |};
                       {| Paperback.number := 2;
                          Paperback.mediaType := "application/octet-stream" |} ]
              |}
              _
              {| Paperback.status := 200;
                 Paperback.data :=
                   Paperback.SerieBody (Scenario.serie_of "M1" "WEBTOON" 2000)
              |}
              _ eq_refl eq_refl eq_refl eq_refl eq_refl eq_refl)
    as (details & Hrun & Hlen & Hurls).
  exists details. split; [exact Hrun|].
  destruct (Hurls 0%nat _ eq_refl) as (u0 & H0 & Hplain & _).
  destruct (Hurls 1%nat _ eq_refl) as (u1 & H1 & _ & Hconvert).
  rewrite Hplain in H0 by (simpl; tauto).
  rewrite Hconvert in H1 by (simpl; intuition discriminate).
  destruct (Paperback.chapter_pages details) as [|a [|b [|c l]]];
    try discriminate.
  by simplify_eq/=.
Defined.

(** A series read as a webtoon is long-strip; one read left to right is
    not. *)
Lemma getChapterDetails_longStrip_witness :
  (exists details,
      fst (Komga.getChapterDetails (Scenario.book_server "WEBTOON") "M1" "B1"
             Scenario.configured)
      = Paperback.Resolved details
      /\ Paperback.longStrip details = true)
  /\ (exists details,
         fst (Komga.getChapterDetails (Scenario.book_server "LEFT_TO_RIGHT")
                "M1" "B1" Scenario.configured)
         = Paperback.Resolved details
         /\ Paperback.longStrip details <> true).
Proof.
  split.
  - destruct (getChapterDetails_longStrip (Scenario.book_server "WEBTOON")
                Scenario.configured "http://komga/api/v1" "Basic b2xkOm9sZA=="
                "M1" "B1" _ _ _ (Scenario.serie_of "M1" "WEBTOON" 2000)
                eq_refl eq_refl eq_refl eq_refl eq_refl eq_refl)
      as (details & Hrun & Hstrip).
    exists details. split; [exact Hrun|]. apply Hstrip. by right.
  - destruct (getChapterDetails_longStrip
                (Scenario.book_server "LEFT_TO_RIGHT")
                Scenario.configured "http://komga/api/v1" "Basic b2xkOm9sZA=="
                "M1" "B1" _ _ _ (Scenario.serie_of "M1" "LEFT_TO_RIGHT" 2000)
                eq_refl eq_refl eq_refl eq_refl eq_refl eq_refl)
      as (details & Hrun & Hstrip).
    exists details. split; [exact Hrun|]. intros H. apply Hstrip in H.
    by destruct H.
Defined.

(** ** Settings submission *)

Section Settings.
Import Paperback Komga.

Variable net : Request -> Outcome Response.

(** Runs a submission up to the answer of the server and goes through the
    three ways the answer is read: 200, 401, anything else. *)
Ltac run_submit :=
  unfold submitSourceMenuItemForm, Wire.test, Wire.with_fields, await,
    try_catch, schedule, await, KomgaRequestInterceptor.interceptRequest,
    emit, resolve, throw;
  simpl; rewrite lookup_singleton_eq; simpl;
  match goal with
  | |- context [net ?request] =>
      let response := fresh "response" in
      destruct (net request) as [response|?]; simpl; [|done];
      destruct (status response =? 200)%N; simpl; [done|];
      by destruct (status response =? 401)%N
  end.

(** The outcome of a submission is decided by the connectivity test. *)
Lemma submit_outcome (itemId : string) (form : Form) (w : World) :
  fst (submitSourceMenuItemForm net itemId form w)
  = match net (Wire.test form) with
    | Rejected message => Rejected ("Could not connect to server: " +:+ message)
    | Resolved response =>
        if (status response =? 200)%N then Resolved tt
        else if (status response =? 401)%N
             then Rejected "401 Unauthorized: Invalid credentials"
             else Rejected ("Connection failed with status code "
                            +:+ Js.ToString (status response))
    end.
Proof.
  run_submit.
Qed.

(** A rejected submission leaves the three raw fields of the form in the
    store, and nothing else. *)
Lemma submit_rejected_state (itemId : string) (form : Form) (w : World)
  (message : string) :
  fst (submitSourceMenuItemForm net itemId form w) = Rejected message ->
  state (snd (submitSourceMenuItemForm net itemId form w))
  = Wire.with_fields form (state w).
Proof.
  run_submit.
Qed.

(** A resolved submission has written the three raw fields and the two
    derived values. *)
Lemma submit_resolved_state (itemId : string) (form : Form) (w : World) :
  fst (submitSourceMenuItemForm net itemId form w) = Resolved tt ->
  state (snd (submitSourceMenuItemForm net itemId form w))
  = <["komgaAPI" := createKomgaAPI (serverAddress form)]>
      (<["authorization" :=
           createAuthorizationString (serverUsername form)
             (serverPassword form)]>
         (Wire.with_fields form (Wire.with_fields form (state w)))).
Proof.
  run_submit.
Qed.

(** What a failed test keeps: the derived values survive a failed
    test. *)
Lemma submit_failure_keeps_derived (itemId : string) (form : Form)
  (w : World) (message : string) :
  fst (submitSourceMenuItemForm net itemId form w) = Rejected message ->
  state (snd (submitSourceMenuItemForm net itemId form w)) !! "authorization"
  = state w !! "authorization"
  /\ state (snd (submitSourceMenuItemForm net itemId form w)) !! "komgaAPI"
     = state w !! "komgaAPI".
Proof.
  intros H. rewrite (submit_rejected_state _ _ _ _ H).
  unfold Wire.with_fields. by rewrite !lookup_insert_ne.
Qed.

(** What a failed test loses: the raw fields are overwritten by a
    failed test. *)
Lemma submit_failure_writes_fields (itemId : string) (form : Form)
  (w : World) (message : string) :
  fst (submitSourceMenuItemForm net itemId form w) = Rejected message ->
  state (snd (submitSourceMenuItemForm net itemId form w)) !! "serverAddress"
  = Some (serverAddress form)
  /\ state (snd (submitSourceMenuItemForm net itemId form w))
     !! "serverUsername" = Some (serverUsername form)
  /\ state (snd (submitSourceMenuItemForm net itemId form w))
     !! "serverPassword" = Some (serverPassword form).
Proof.
  intros H. rewrite (submit_rejected_state _ _ _ _ H).
  unfold Wire.with_fields.
  repeat split; repeat (rewrite lookup_insert_ne by done);
    by rewrite lookup_insert_eq.
Qed.

(** On success: a test answered with 200 persists all five
    keys with the submitted and derived values. *)
Lemma submit_success_persists (itemId : string) (form : Form) (w : World)
  (response : Response) :
  net (Wire.test form) = Resolved response ->
  status response = 200%N ->
  fst (submitSourceMenuItemForm net itemId form w) = Resolved tt
  /\ (forall key value,
        In (key, value)
          [("serverAddress", serverAddress form);
           ("serverUsername", serverUsername form);
           ("serverPassword", serverPassword form);
           ("authorization",
            createAuthorizationString (serverUsername form)
              (serverPassword form));
           ("komgaAPI", createKomgaAPI (serverAddress form))] ->
        state (snd (submitSourceMenuItemForm net itemId form w)) !! key
        = Some value).
Proof.
  intros Hnet Hstatus.
  assert (fst (submitSourceMenuItemForm net itemId form w) = Resolved tt)
    as Hok by (by rewrite submit_outcome, Hnet, Hstatus).
  split; [exact Hok|]. intros key value Hin.
  rewrite (submit_resolved_state _ _ _ Hok). unfold Wire.with_fields.
  simpl in Hin.
  destruct Hin as [E|[E|[E|[E|[E|[]]]]]]; injection E as <- <-;
    repeat (rewrite lookup_insert_ne by done); by rewrite lookup_insert_eq.
Qed.

End Settings.

(** ** Update polling *)

Section Polling.
Import Paperback Komga.

Variable net : Request -> Outcome Response.

(** No candidate id is the same value as an element of [content]. *)
Lemma includes_serie (ids : list string) (serie : Serie) :
  includes ids (VSerie serie) = false.
Proof. unfold includes. induction ids as [|s ids IH]; simpl; done. Qed.

(** The scan of a page only ever pushes onto the accumulator. *)
Lemma scan_content_extends (time : Js.Date) (ids : list string)
  (content : list Serie) (foundIds : list Value) (loadMore : bool) :
  foundIds `prefix_of` fst (scan_content time ids content foundIds loadMore).
Proof.
  revert foundIds. induction content as [|serie rest IH]; intros foundIds.
  - done.
  - simpl. destruct (Js.date_ge _ time); [|done].
    destruct (includes ids (VSerie serie)); [|apply IH].
    etrans; [|apply IH]. by apply prefix_app_r.
Qed.

(** With candidate ids that are strings, the scan pushes nothing. *)
Lemma scan_content_finds_nothing (time : Js.Date) (ids : list string)
  (content : list Serie) (foundIds : list Value) (loadMore : bool) :
  fst (scan_content time ids content foundIds loadMore) = foundIds.
Proof.
  revert foundIds. induction content as [|serie rest IH]; intros foundIds.
  - done.
  - simpl. destruct (Js.date_ge _ time); [|done].
    rewrite includes_serie. apply IH.
Qed.

(** A page whose entries are all at least as recent as the cutoff does not
    stop the poll. *)
Lemma scan_content_recent (time : Js.Date) (ids : list string)
  (content : list Serie) (foundIds : list Value) :
  Forall (fun serie =>
            Js.date_ge (lastModified (metadata serie)) time = true) content ->
  snd (scan_content time ids content foundIds true) = true.
Proof.
  intros H. revert foundIds.
  induction H as [|serie rest Hserie _ IH]; intros foundIds; [done|].
  simpl. rewrite Hserie. destruct (includes ids (VSerie serie)); apply IH.
Qed.

Lemma schedule_notified (request : Request) (w : World) :
  Wire.notified (snd (schedule net request 1 w)) = Wire.notified w.
Proof.
  unfold schedule, await, KomgaRequestInterceptor.interceptRequest,
    KomgaRequestInterceptor.getAuthorizationString, await, retrieve, emit,
    resolve, throw, KomgaRequestInterceptor.interceptResponse.
  repeat case_match; simplify_eq/=; try done;
    unfold Wire.notified; simpl; rewrite flat_map_app; simpl;
    by rewrite app_nil_r.
Qed.

End Polling.

Section PollingClaims.
Import Paperback Komga.

Variable net : Request -> Outcome Response.

(** The callback is never reached from the entry point: the accumulator
    stays empty. *)
Lemma poll_loop_silent (fuel : nat) (api : string) (time : Js.Date)
  (ids : list string) (p : N) (w : World) :
  Wire.notified (snd (poll_loop net fuel api time ids p [] w))
  = Wire.notified w.
Proof.
  revert p w. induction fuel as [|fuel IH]; intros p w; [done|].
  simpl. unfold await at 1.
  pose proof (schedule_notified net
                (createRequestObject (api +:+ "/series/updated/") "GET"
                   (Some ("?page=" +:+ Js.ToString p +:+ "&size="
                          +:+ Js.ToString PAGE_SIZE)) None None) w) as Hs.
  destruct (schedule net _ 1 w) as [[response|message] w1];
    simpl in Hs; [|done].
  unfold await at 1. destruct (data response) as [content| |]; simpl; try done.
  pose proof (scan_content_finds_nothing time ids content [] true) as Hnone.
  destruct (scan_content time ids content [] true) as [foundIds' loadMore].
  simpl in Hnone. subst foundIds'. unfold await at 1. simpl.
  destruct (if (List.length content =? 0)%nat then false else loadMore);
    [by rewrite IH|done].
Qed.

Lemma filterUpdatedManga_never_notifies (fuel : nat) (time : Js.Date)
  (ids : list string) (w : World) :
  Wire.notified (snd (filterUpdatedManga net fuel time ids w))
  = Wire.notified w.
Proof.
  unfold filterUpdatedManga, await, getKomgaAPI, await, retrieve.
  destruct (state w !! "komgaAPI") as [api|]; simpl; [|done].
  apply poll_loop_silent.
Qed.

End PollingClaims.

Section PollingRuns.
Import Paperback Komga.

Variable net : Request -> Outcome Response.

(** Termination of the poll: when the first page is not empty and
    holds only entries at least as recent as the cutoff, and the second
    page is empty, the poll fetches exactly these two pages and ends. *)
Lemma filterUpdatedManga_stops_after_empty_page (fuel : nat) (time : Js.Date)
  (ids : list string) (w : World) (api auth : string)
  (first second : Response) (content : list Serie) :
  state w !! "komgaAPI" = Some api ->
  state w !! "authorization" = Some auth ->
  net (Wire.updated auth api 0) = Resolved first ->
  data first = SeriesPage content ->
  content <> [] ->
  Forall (fun serie =>
            Js.date_ge (lastModified (metadata serie)) time = true) content ->
  net (Wire.updated auth api 1) = Resolved second ->
  data second = SeriesPage [] ->
  fst (filterUpdatedManga net (S (S fuel)) time ids w) = Resolved Finished
  /\ Wire.dispatched (snd (filterUpdatedManga net (S (S fuel)) time ids w))
     = (Wire.dispatched w
        ++ [Wire.updated auth api 0; Wire.updated auth api 1])%list.
Proof.
  intros Hapi Hauth H0 Hd0 Hne Hrecent H1 Hd1.
  assert (filterUpdatedManga net (S (S fuel)) time ids w
          = (Resolved Finished,
             Wire.sent (Wire.sent w (Wire.updated auth api 0))
               (Wire.updated auth api 1))) as Hrun.
  { unfold filterUpdatedManga, await at 1.
    rewrite (getKomgaAPI_run w api Hapi).
    simpl poll_loop. rewrite !page_query_built.
    unfold await at 1. rewrite (schedule_run net w auth _ _ Hauth).
    fold (Wire.updated auth api 0). rewrite H0.
    unfold await at 1. rewrite Hd0. simpl content_of. unfold resolve at 1.
    pose proof (scan_content_finds_nothing time ids content [] true) as Hnone.
    pose proof (scan_content_recent time ids content [] Hrecent) as Hmore.
    destruct (scan_content time ids content [] true) as [foundIds' loadMore].
    simpl in Hnone, Hmore. subst foundIds' loadMore.
    destruct content as [|serie rest]; [done|]. simpl.
    unfold await at 1. simpl.
    unfold await at 1. rewrite schedule_run with (auth := auth) by exact Hauth.
    change (0 + 1)%N with 1%N. fold (Wire.updated auth api 1). rewrite H1.
    unfold await at 1. by rewrite Hd1. }
  rewrite Hrun. split; [done|].
  unfold Wire.dispatched. simpl. rewrite !flat_map_app. simpl.
  by rewrite <- app_assoc.
Qed.

End PollingRuns.

(** ** Evaluations *)

(** C1. In release 1.1.3 a submission whose test is answered with 401 is
    rejected as unauthorized and leaves the stored authorization and API
    address as they were, but it has already replaced the stored address,
    user name and password with the submitted ones. *)
Lemma submitSourceMenuItemForm_unauthorized_overwrites :
  map (fun key => Paperback.state Scenario.configured !! key)
    ["serverAddress"; "serverUsername"; "serverPassword"; "authorization";
     "komgaAPI"]
  = [Some "http://komga"; Some "old"; Some "old"; Some "Basic b2xkOm9sZA==";
     Some "http://komga/api/v1"]
  /\ fst (Komga.submitSourceMenuItemForm (Scenario.status_server 401)
            "serverSettings" Scenario.new_form Scenario.configured)
     = Paperback.Rejected "401 Unauthorized: Invalid credentials"
  /\ map (fun key =>
            Paperback.state
              (snd (Komga.submitSourceMenuItemForm (Scenario.status_server 401)
                      "serverSettings" Scenario.new_form Scenario.configured))
            !! key)
       ["serverAddress"; "serverUsername"; "serverPassword"; "authorization";
        "komgaAPI"]
     = [Some "http://new"; Some "user"; Some "secret";
        Some "Basic b2xkOm9sZA=="; Some "http://komga/api/v1"].
Proof. by vm_compute. Qed.

(** The same holds when the server answers 500 or cannot be reached. *)
Lemma submitSourceMenuItemForm_failure_overwrites :
  fst (Komga.submitSourceMenuItemForm (Scenario.status_server 500)
         "serverSettings" Scenario.new_form Scenario.configured)
  = Paperback.Rejected "Connection failed with status code 500"
  /\ Paperback.state
       (snd (Komga.submitSourceMenuItemForm (Scenario.status_server 500)
               "serverSettings" Scenario.new_form Scenario.configured))
     !! "serverAddress" = Some "http://new"
  /\ fst (Komga.submitSourceMenuItemForm Scenario.down_server
            "serverSettings" Scenario.new_form Scenario.configured)
     = Paperback.Rejected
         "Could not connect to server: AsyncOperationTimedOutError"
  /\ Paperback.state
       (snd (Komga.submitSourceMenuItemForm Scenario.down_server
               "serverSettings" Scenario.new_form Scenario.configured))
     !! "serverAddress" = Some "http://new".
Proof. by vm_compute. Qed.

(** A test answered with 200 persists the five keys. *)
Lemma submitSourceMenuItemForm_success_persists :
  fst (Komga.submitSourceMenuItemForm (Scenario.status_server 200)
         "serverSettings" Scenario.new_form Scenario.configured)
  = Paperback.Resolved tt
  /\ map (fun key =>
            Paperback.state
              (snd (Komga.submitSourceMenuItemForm (Scenario.status_server 200)
                      "serverSettings" Scenario.new_form Scenario.configured))
            !! key)
       ["serverAddress"; "serverUsername"; "serverPassword"; "authorization";
        "komgaAPI"]
     = [Some "http://new"; Some "user"; Some "secret";
        Some "Basic dXNlcjpzZWNyZXQ="; Some "http://new/api/v1"].
Proof. by vm_compute. Qed.

(** Release 1.1.2 writes all five keys before the test: a 401 leaves none
    of the stored values as it was. *)
Lemma submitSourceMenuItemForm_1_1_2_unauthorized_overwrites :
  fst (Komga_1_1_2.submitSourceMenuItemForm (Scenario.status_server 401)
         "serverSettings" Scenario.new_form Scenario.configured)
  = Paperback.Rejected "401 Unauthorized: Invalid credentials"
  /\ map (fun key =>
            Paperback.state
              (snd (Komga_1_1_2.submitSourceMenuItemForm
                      (Scenario.status_server 401) "serverSettings"
                      Scenario.new_form Scenario.configured))
            !! key)
       ["serverAddress"; "serverUsername"; "serverPassword"; "authorization";
        "komgaAPI"]
     = [Some "http://new"; Some "user"; Some "secret";
        Some "Basic dXNlcjpzZWNyZXQ="; Some "http://new/api/v1"].
Proof. by vm_compute. Qed.

(** C2. Page 0 of the "updated" listing holds series "A", modified at 2000,
    after the cutoff 1000, and "A" is a candidate id; page 1 is empty.  The
    poll fetches the two pages and ends, and the callback is never called. *)
Lemma filterUpdatedManga_misses_update :
  Scenario.updated_server
    (Wire.updated "Basic b2xkOm9sZA==" "http://komga/api/v1" 0)
  = Paperback.Resolved
      {| Paperback.status := 200;
         Paperback.data :=
           Paperback.SeriesPage [Scenario.serie_of "A" "LEFT_TO_RIGHT" 2000] |}
  /\ Js.date_ge (Some 2000%Z) (Some 1000%Z) = true
  /\ Js.includes ["A"] "A" = true
  /\ fst (Komga.filterUpdatedManga Scenario.updated_server 5 (Some 1000%Z)
            ["A"] Scenario.configured)
     = Paperback.Resolved Komga.Finished
  /\ Wire.dispatched
       (snd (Komga.filterUpdatedManga Scenario.updated_server 5 (Some 1000%Z)
               ["A"] Scenario.configured))
     = [Wire.updated "Basic b2xkOm9sZA==" "http://komga/api/v1" 0;
        Wire.updated "Basic b2xkOm9sZA==" "http://komga/api/v1" 1]
  /\ Wire.notified
       (snd (Komga.filterUpdatedManga Scenario.updated_server 5 (Some 1000%Z)
               ["A"] Scenario.configured))
     = [].
Proof. by vm_compute. Qed.


(** ** Instances of the statements *)

(** Both spellings of an address give the same API base. *)
Lemma createKomgaAPI_normalizes_witness :
  Komga.createKomgaAPI "http://komga/" = "http://komga/api/v1"
  /\ Komga.createKomgaAPI "http://komga" = "http://komga/api/v1".
Proof.
  split.
  - apply (proj1 (createKomgaAPI_normalizes "http://komga/")).
    by exists "http://komga".
  - apply (proj2 (createKomgaAPI_normalizes "http://komga")).
    intros H. apply slice_last_slash in H. discriminate H.
Defined.

(** A status the server does not document is ongoing. *)
Lemma parseMangaStatus_total_witness :
  Komga.parseMangaStatus "PAUSED" = Paperback.ONGOING.
Proof.
  apply (proj1 (proj2 (proj2 (proj2 (proj2 parseMangaStatus_total))))).
  simpl. intuition discriminate.
Defined.

(** The test request of the settings form passes an interceptor whose
    store holds no authorization; a plain request is rejected there, and
    gets the stored authorization once the adapter is configured. *)
Lemma interceptor_contract_witness :
  Komga.KomgaRequestInterceptor.interceptRequest
    (Wire.test Scenario.new_form)
    {| Paperback.state := ∅; Paperback.events := [] |}
  = (Paperback.Resolved (Wire.test Scenario.new_form),
     {| Paperback.state := ∅; Paperback.events := [] |})
  /\ Komga.KomgaRequestInterceptor.interceptRequest
       (Paperback.createRequestObject "http://komga/api/v1/series" "GET"
          None None None)
       {| Paperback.state := ∅; Paperback.events := [] |}
     = (Paperback.Rejected "Unset credentials in source settings",
        {| Paperback.state := ∅; Paperback.events := [] |})
  /\ Komga.KomgaRequestInterceptor.interceptRequest
       (Paperback.createRequestObject "http://komga/api/v1/series" "GET"
          None None None)
       Scenario.configured
     = (Paperback.Resolved
          (Wire.get "Basic b2xkOm9sZA==" "http://komga/api/v1/series" None),
        Scenario.configured).
Proof.
  split; [|split].
  - exact (proj1 (interceptor_contract (Wire.test Scenario.new_form)
                    {| Paperback.state := ∅; Paperback.events := [] |})
             _ "Basic dXNlcjpzZWNyZXQ=" eq_refl eq_refl).
  - exact (proj1 (proj2 (interceptor_contract
                           (Paperback.createRequestObject
                              "http://komga/api/v1/series" "GET"
                              None None None)
                           {| Paperback.state := ∅; Paperback.events := [] |}))
             eq_refl).
  - exact (proj1 (proj2 (interceptor_contract
                           (Paperback.createRequestObject
                              "http://komga/api/v1/series" "GET"
                              None None None)
                           Scenario.configured))
             eq_refl).
Defined.

(** ** Further properties: what the operations leave alone *)

Section ReadOnly.
Import Paperback Komga.

Lemma reads_only_resolve {A : Type} (a : A) : Report.reads_only (resolve a).
Proof. done. Qed.

Lemma reads_only_throw {A : Type} (message : string) :
  Report.reads_only (throw (A := A) message).
Proof. done. Qed.

Lemma reads_only_retrieve (key : string) : Report.reads_only (retrieve key).
Proof. done. Qed.

Lemma reads_only_emit (e : Event) : Report.reads_only (emit e).
Proof. done. Qed.

Lemma reads_only_await {A B : Type} (p : Promise A) (k : A -> Promise B) :
  Report.reads_only p -> (forall a, Report.reads_only (k a)) ->
  Report.reads_only (await p k).
Proof.
  intros Hp Hk w. unfold await. specialize (Hp w).
  destruct (p w) as [[a|message] w1]; simpl in *; [|done].
  by rewrite Hk.
Qed.

Lemma reads_only_server {A : Type} (answer : Outcome A) :
  Report.reads_only (fun w => (answer, w)).
Proof. done. Qed.

Lemma reads_only_getKomgaAPI : Report.reads_only getKomgaAPI.
Proof.
  apply reads_only_await; [apply reads_only_retrieve|].
  intros [?|]; [apply reads_only_resolve | apply reads_only_throw].
Qed.

Lemma reads_only_interceptRequest (request : Request) :
  Report.reads_only (KomgaRequestInterceptor.interceptRequest request).
Proof.
  unfold KomgaRequestInterceptor.interceptRequest.
  destruct (default ∅ (headers _) !! "authorization");
    [apply reads_only_resolve|].
  apply reads_only_await; [|intros; apply reads_only_resolve].
  apply reads_only_await; [apply reads_only_retrieve|].
  intros [?|]; [apply reads_only_resolve | apply reads_only_throw].
Qed.

Lemma reads_only_schedule (net : Request -> Outcome Response)
  (request : Request) :
  Report.reads_only (schedule net request 1).
Proof.
  apply reads_only_await; [apply reads_only_interceptRequest|]. intros r.
  apply reads_only_await; [apply reads_only_emit|]. intros _.
  apply reads_only_await; [apply reads_only_server|]. intros response.
  apply reads_only_resolve.
Qed.

Lemma reads_only_library_schedule (net : Request -> Outcome Library.Reply)
  (request : Request) :
  Report.reads_only (Library.schedule net request 1).
Proof.
  apply reads_only_await; [apply reads_only_interceptRequest|]. intros r.
  apply reads_only_await; [apply reads_only_emit|]. intros _.
  apply reads_only_await; [apply reads_only_server|]. intros response.
  apply reads_only_resolve.
Qed.

Lemma reads_only_content_of (result : Body) : Report.reads_only (content_of result).
Proof. destruct result; done. Qed.

Lemma reads_only_poll_loop (net : Request -> Outcome Response) (fuel : nat)
  (api : string) (time : Js.Date) (ids : list string) (p : N)
  (foundIds : list Value) :
  Report.reads_only (poll_loop net fuel api time ids p foundIds).
Proof.
  revert p foundIds. induction fuel as [|fuel IH]; intros p foundIds;
    [apply reads_only_resolve|].
  simpl. apply reads_only_await; [apply reads_only_schedule|]. intros data.
  apply reads_only_await; [apply reads_only_content_of|]. intros content.
  destruct (scan_content time ids content foundIds true)
    as [foundIds' loadMore].
  apply reads_only_await.
  - destruct (0 <? List.length foundIds')%nat;
      [apply reads_only_emit | apply reads_only_resolve].
  - intros _.
    destruct (if (List.length content =? 0)%nat then false else loadMore);
      [apply IH | apply reads_only_resolve].
Qed.

(** No catalogue operation writes the store, whatever the server answers
    and whether the operation resolves, rejects or is still polling. *)
Theorem catalogue_reads_only (net : Request -> Outcome Response)
  (details : Request -> Outcome Library.Reply)
  (reverseLangCode : string -> option string) :
  (forall searchQuery metadata,
      Report.reads_only (searchRequest net searchQuery metadata))
  /\ (forall homepageSectionId metadata,
         Report.reads_only (getViewMoreItems net homepageSectionId metadata))
  /\ (forall mangaId chapterId,
         Report.reads_only (getChapterDetails net mangaId chapterId))
  /\ (forall fuel time ids, Report.reads_only (filterUpdatedManga net fuel time ids))
  /\ (forall mangaId, Report.reads_only (Library.getMangaDetails details mangaId))
  /\ (forall mangaId,
         Report.reads_only (Library.getChapters details reverseLangCode mangaId))
  /\ (forall reversed w,
         state (snd (Home.getHomePageSections net reversed w)) = state w).
Proof.
  repeat split.
  - intros searchQuery metadata.
    apply reads_only_await; [apply reads_only_getKomgaAPI|]. intros api.
    apply reads_only_await; [apply reads_only_schedule|]. intros data.
    apply reads_only_await; [apply reads_only_content_of|]. intros content.
    apply reads_only_resolve.
  - intros homepageSectionId metadata.
    apply reads_only_await; [apply reads_only_getKomgaAPI|]. intros api.
    apply reads_only_await; [apply reads_only_schedule|]. intros data.
    apply reads_only_await; [apply reads_only_content_of|]. intros content.
    apply reads_only_resolve.
  - intros mangaId chapterId.
    apply reads_only_await; [apply reads_only_getKomgaAPI|]. intros api.
    apply reads_only_await; [apply reads_only_schedule|]. intros data.
    apply reads_only_await; [by destruct (Paperback.data data)|].
    intros result.
    apply reads_only_await; [apply reads_only_schedule|]. intros parent.
    apply reads_only_await; [by destruct (Paperback.data parent)|].
    intros serieMetadata. apply reads_only_resolve.
  - intros fuel time ids.
    apply reads_only_await; [apply reads_only_getKomgaAPI|]. intros api.
    apply reads_only_poll_loop.
  - intros mangaId.
    apply reads_only_await; [apply reads_only_getKomgaAPI|]. intros api.
    apply reads_only_await; [apply reads_only_library_schedule|].
    intros response.
    apply reads_only_await; [by destruct (Library.reply_data response)|].
    intros result.
    cbv beta zeta.
    match goal with
    | |- context [fold_left Library.credit ?l ?a] =>
        destruct (fold_left Library.credit l a)
    end.
    apply reads_only_resolve.
  - intros mangaId.
    apply reads_only_await; [apply reads_only_getKomgaAPI|]. intros api.
    apply reads_only_await; [apply reads_only_library_schedule|].
    intros response.
    apply reads_only_await; [apply reads_only_library_schedule|].
    intros responseSerie.
    apply reads_only_await;
      [by destruct (Library.reply_data responseSerie)|].
    intros resultSerie.
    apply reads_only_await; [by destruct (Library.reply_data response)|].
    intros content. apply reads_only_resolve.
  - intros reversed w. unfold Home.getHomePageSections.
    destruct (state w !! "komgaAPI") as [api|]; [|done].
    assert (forall sections, Report.reads_only (Home.start net api sections)) as H.
    { induction sections as [|section rest IH]; [apply reads_only_resolve|].
      simpl. apply reads_only_await.
      - intros w0. unfold Home.settle.
        pose proof (reads_only_schedule net
                      (createRequestObject
                         (api +:+ "/series/" +:+ Home.home_id section) "GET"
                         (Some "?page=0&size=20") None None) w0) as Hs.
        by destruct (schedule net _ 1 w0).
      - intros settled. apply reads_only_await; [apply IH|].
        intros others. apply reads_only_resolve. }
    match goal with
    | |- context [Home.start net api ?sections w] =>
        specialize (H sections w); destruct (Home.start net api sections w)
          as [[settled|message] w']
    end; done.
Qed.

End ReadOnly.

(** ** Further properties: missing settings and failing requests *)

Section Failures.
Import Paperback Komga.

Variable net : Request -> Outcome Response.
Variable details : Request -> Outcome Library.Reply.
Variable reverseLangCode : string -> option string.

Lemma library_schedule_run (w : World) (auth u : string) (p : option string) :
  state w !! "authorization" = Some auth ->
  Library.schedule details (createRequestObject u "GET" p None None) 1 w
  = (details (Wire.get auth u p), Wire.sent w (Wire.get auth u p)).
Proof.
  intros H.
  unfold Library.schedule, await, KomgaRequestInterceptor.interceptRequest,
    KomgaRequestInterceptor.getAuthorizationString, await, retrieve.
  simpl. rewrite lookup_empty. rewrite H. simpl.
  unfold KomgaRequestInterceptor.set_headers, Wire.get. simpl.
  by destruct (details _).
Qed.

Lemma schedule_unset_credentials (w : World) (request : Request) :
  headers request = None ->
  state w !! "authorization" = None ->
  schedule net request 1 w
  = (Rejected "Unset credentials in source settings", w).
Proof.
  intros Hh H.
  unfold schedule, await, KomgaRequestInterceptor.interceptRequest,
    KomgaRequestInterceptor.getAuthorizationString, await, retrieve.
  rewrite Hh. simpl. rewrite lookup_empty. by rewrite H.
Qed.

Lemma library_schedule_unset_credentials (w : World) (request : Request) :
  headers request = None ->
  state w !! "authorization" = None ->
  Library.schedule details request 1 w
  = (Rejected "Unset credentials in source settings", w).
Proof.
  intros Hh H.
  unfold Library.schedule, await, KomgaRequestInterceptor.interceptRequest,
    KomgaRequestInterceptor.getAuthorizationString, await, retrieve.
  rewrite Hh. simpl. rewrite lookup_empty. by rewrite H.
Qed.

Lemma getKomgaAPI_unset (w : World) :
  state w !! "komgaAPI" = None ->
  getKomgaAPI w = (Rejected "Unset server URL in source settings", w).
Proof. intros H. unfold getKomgaAPI, await, retrieve. by rewrite H. Qed.

(** Without a stored server URL every catalogue operation rejects with
    "Unset server URL in source settings" and leaves the world as it is:
    no request is sent and no callback is called.  The home page alone
    does not fail: it resolves with one placeholder section, "Server unset
    in source settings", and sends nothing either. *)
Theorem unset_server_rejects (w : World) :
  state w !! "komgaAPI" = None ->
  (forall searchQuery metadata,
      searchRequest net searchQuery metadata w
      = (Rejected "Unset server URL in source settings", w))
  /\ (forall homepageSectionId metadata,
         getViewMoreItems net homepageSectionId metadata w
         = (Rejected "Unset server URL in source settings", w))
  /\ (forall mangaId chapterId,
         getChapterDetails net mangaId chapterId w
         = (Rejected "Unset server URL in source settings", w))
  /\ (forall fuel time ids,
         filterUpdatedManga net fuel time ids w
         = (Rejected "Unset server URL in source settings", w))
  /\ (forall mangaId,
         Library.getMangaDetails details mangaId w
         = (Rejected "Unset server URL in source settings", w))
  /\ (forall mangaId,
         Library.getChapters details reverseLangCode mangaId w
         = (Rejected "Unset server URL in source settings", w))
  /\ (forall reversed,
         Home.getHomePageSections net reversed w
         = ({| Home.callbacks :=
                 [Home.createHomeSection "unset"
                    "Server unset in source settings" false None];
               Home.outcome := Resolved tt |}, w)).
Proof.
  intros H. pose proof (getKomgaAPI_unset w H) as Hapi.
  repeat split; intros;
    unfold searchRequest, getViewMoreItems, getChapterDetails,
      filterUpdatedManga, Library.getMangaDetails, Library.getChapters,
      Home.getHomePageSections;
    first [ by rewrite H | unfold await at 1; by rewrite Hapi ].
Qed.

(** With a server URL but no stored authorization every catalogue
    operation rejects with "Unset credentials in source settings" before
    anything is sent.  The home page rejects with it too, in either order
    of settling, once its two sections have been handed over empty; no
    section is handed over with items. *)
Theorem unset_credentials_reject (w : World) (api : string) :
  state w !! "komgaAPI" = Some api ->
  state w !! "authorization" = None ->
  (forall searchQuery metadata,
      searchRequest net searchQuery metadata w
      = (Rejected "Unset credentials in source settings", w))
  /\ (forall homepageSectionId metadata,
         getViewMoreItems net homepageSectionId metadata w
         = (Rejected "Unset credentials in source settings", w))
  /\ (forall mangaId chapterId,
         getChapterDetails net mangaId chapterId w
         = (Rejected "Unset credentials in source settings", w))
  /\ (forall fuel time ids,
         filterUpdatedManga net (S fuel) time ids w
         = (Rejected "Unset credentials in source settings", w))
  /\ (forall mangaId,
         Library.getMangaDetails details mangaId w
         = (Rejected "Unset credentials in source settings", w))
  /\ (forall mangaId,
         Library.getChapters details reverseLangCode mangaId w
         = (Rejected "Unset credentials in source settings", w))
  /\ (forall reversed,
         Home.getHomePageSections net reversed w
         = ({| Home.callbacks :=
                 [Home.createHomeSection "new" "Recently added series" true
                    None;
                  Home.createHomeSection "updated" "Recently updated series"
                    true None];
               Home.outcome :=
                 Rejected "Unset credentials in source settings" |}, w)).
Proof.
  intros Hapi Hauth. pose proof (getKomgaAPI_run w api Hapi) as Hrun.
  repeat split; intros;
    try (unfold searchRequest, getViewMoreItems, getChapterDetails,
           filterUpdatedManga, Library.getMangaDetails, Library.getChapters;
         unfold await at 1; rewrite Hrun; simpl poll_loop; unfold await at 1;
         first [ rewrite schedule_unset_credentials by done
               | rewrite library_schedule_unset_credentials by done ];
         done).
  unfold Home.getHomePageSections. rewrite Hapi. simpl Home.start.
  unfold await, Home.settle. cbv beta.
  rewrite !schedule_unset_credentials by done.
  by destruct reversed.
Qed.

(** A transport failure of a listing request is handed on as it is: the
    operation rejects with the same message after that one request. *)
Theorem listing_failure_is_final (w : World) (api auth : string) :
  state w !! "komgaAPI" = Some api ->
  state w !! "authorization" = Some auth ->
  (forall searchQuery metadata message,
      net (Wire.get auth (api +:+ "/series")
             (Some (Wire.search_query searchQuery
                      (Wire.cursor_page metadata))))
      = Rejected message ->
      searchRequest net searchQuery metadata w
      = (Rejected message,
         Wire.sent w
           (Wire.get auth (api +:+ "/series")
              (Some (Wire.search_query searchQuery
                       (Wire.cursor_page metadata))))))
  /\ (forall homepageSectionId metadata message,
         net (Wire.get auth (api +:+ "/series/" +:+ homepageSectionId)
                (Some (Wire.page_query (Wire.cursor_page metadata))))
         = Rejected message ->
         getViewMoreItems net homepageSectionId metadata w
         = (Rejected message,
            Wire.sent w
              (Wire.get auth (api +:+ "/series/" +:+ homepageSectionId)
                 (Some (Wire.page_query (Wire.cursor_page metadata))))))
  /\ (forall fuel time ids message,
         net (Wire.updated auth api 0) = Rejected message ->
         filterUpdatedManga net (S fuel) time ids w
         = (Rejected message, Wire.sent w (Wire.updated auth api 0))).
Proof.
  intros Hapi Hauth. split; [|split].
  - intros searchQuery metadata message Hnet.
    unfold searchRequest, await at 1. rewrite (getKomgaAPI_run w api Hapi).
    fold (Wire.cursor_page metadata). rewrite search_query_built.
    unfold await at 1. by rewrite (schedule_run net w auth _ _ Hauth), Hnet.
  - intros homepageSectionId metadata message Hnet.
    unfold getViewMoreItems, await at 1.
    rewrite (getKomgaAPI_run w api Hapi).
    fold (Wire.cursor_page metadata). rewrite page_query_built.
    unfold await at 1. by rewrite (schedule_run net w auth _ _ Hauth), Hnet.
  - intros fuel time ids message Hnet.
    unfold filterUpdatedManga, await at 1.
    rewrite (getKomgaAPI_run w api Hapi).
    simpl poll_loop. rewrite page_query_built.
    unfold await at 1. rewrite (schedule_run net w auth _ _ Hauth).
    fold (Wire.updated auth api 0). by rewrite Hnet.
Qed.

(** The two requests of the chapter details run one after the other: when
    the page list cannot be fetched the series is never asked for, and
    when the series cannot be fetched the call rejects although the page
    list was read. *)
Theorem getChapterDetails_failures (w : World)
  (api auth mangaId chapterId : string) :
  state w !! "komgaAPI" = Some api ->
  state w !! "authorization" = Some auth ->
  (forall message,
      net (Wire.get auth (api +:+ "/books/" +:+ chapterId +:+ "/pages") None)
      = Rejected message ->
      getChapterDetails net mangaId chapterId w
      = (Rejected message,
         Wire.sent w
           (Wire.get auth (api +:+ "/books/" +:+ chapterId +:+ "/pages")
              None)))
  /\ (forall listed pages message,
         net (Wire.get auth (api +:+ "/books/" +:+ chapterId +:+ "/pages")
                None)
         = Resolved listed ->
         data listed = BookPages pages ->
         net (Wire.get auth (api +:+ "/series/" +:+ mangaId +:+ "/") None)
         = Rejected message ->
         getChapterDetails net mangaId chapterId w
         = (Rejected message,
            Wire.sent
              (Wire.sent w
                 (Wire.get auth
                    (api +:+ "/books/" +:+ chapterId +:+ "/pages") None))
              (Wire.get auth (api +:+ "/series/" +:+ mangaId +:+ "/") None))).
Proof.
  intros Hapi Hauth. split.
  - intros message Hnet.
    unfold getChapterDetails, await at 1.
    rewrite (getKomgaAPI_run w api Hapi).
    unfold await at 1. by rewrite (schedule_run net w auth _ _ Hauth), Hnet.
  - intros listed pages message Hl Hld Hp.
    unfold getChapterDetails, await at 1.
    rewrite (getKomgaAPI_run w api Hapi).
    unfold await at 1. rewrite (schedule_run net w auth _ _ Hauth), Hl, Hld.
    unfold await at 1, pages_of, resolve at 1.
    unfold await at 1. rewrite schedule_run with (auth := auth) by exact Hauth.
    by rewrite Hp.
Qed.

End Failures.

(** ** Further properties: the settings form and the interceptor *)

Section SettingsMore.
Import Paperback Komga.

Variable net : Request -> Outcome Response.

Lemma submit_world (itemId : string) (form : Form) (w : World) :
  events (snd (submitSourceMenuItemForm net itemId form w))
  = (events w ++ [Dispatched (Wire.test form)])%list.
Proof.
  unfold submitSourceMenuItemForm, Wire.test, await, try_catch, schedule,
    await, KomgaRequestInterceptor.interceptRequest, emit, resolve, throw.
  simpl. rewrite lookup_singleton_eq. simpl.
  destruct (net _) as [response|?]; simpl; [|done].
  destruct (status response =? 200)%N; simpl; [done|].
  by destruct (status response =? 401)%N.
Qed.

(** A submission sends exactly one request, the connectivity test: a GET
    of [{address}/api/v1/series/?size=1], incognito, carrying the
    authorization derived from the submitted fields.  This holds in every
    world, also one that stores no authorization yet. *)
Theorem submit_tests_once (itemId : string) (form : Form) (w : World) :
  Wire.dispatched (snd (submitSourceMenuItemForm net itemId form w))
  = (Wire.dispatched w ++ [Wire.test form])%list
  /\ Wire.notified (snd (submitSourceMenuItemForm net itemId form w))
     = Wire.notified w
  /\ url (Wire.test form)
     = createKomgaAPI (serverAddress form) +:+ "/series/"
  /\ param (Wire.test form) = Some "?size=1"
  /\ incognito (Wire.test form) = Some true
  /\ default ∅ (headers (Wire.test form)) !! "authorization"
     = Some (createAuthorizationString (serverUsername form)
               (serverPassword form)).
Proof.
  unfold Wire.dispatched, Wire.notified. rewrite submit_world.
  rewrite !flat_map_app. simpl. rewrite app_nil_r.
  by repeat split.
Qed.

(** How a failed test is reported: a transport failure as "Could not
    connect to server: " and its message, a status 401 as "401
    Unauthorized: Invalid credentials", any other status but 200 as
    "Connection failed with status code " and the status. *)
Theorem submit_reports_failure (itemId : string) (form : Form) (w : World) :
  (forall message,
      net (Wire.test form) = Rejected message ->
      fst (submitSourceMenuItemForm net itemId form w)
      = Rejected ("Could not connect to server: " +:+ message))
  /\ (forall response,
         net (Wire.test form) = Resolved response ->
         status response = 401%N ->
         fst (submitSourceMenuItemForm net itemId form w)
         = Rejected "401 Unauthorized: Invalid credentials")
  /\ (forall response,
         net (Wire.test form) = Resolved response ->
         status response <> 200%N -> status response <> 401%N ->
         fst (submitSourceMenuItemForm net itemId form w)
         = Rejected ("Connection failed with status code "
                     +:+ Js.ToString (status response)))
  /\ (forall response,
         net (Wire.test form) = Resolved response ->
         (fst (submitSourceMenuItemForm net itemId form w) = Resolved tt
          <-> status response = 200%N)).
Proof.
  rewrite submit_outcome. repeat split.
  - by intros message ->.
  - by intros response -> ->.
  - intros response -> H200 H401.
    destruct (N.eqb_spec (status response) 200); [done|].
    by destruct (N.eqb_spec (status response) 401).
  - rewrite H. destruct (N.eqb_spec (status response) 200); [done|].
    by destruct (status response =? 401)%N.
  - rewrite H. intros ->. done.
Qed.

(** After a successful submission the catalogue works with the submitted
    settings: a search goes to the API of the submitted address with the
    authorization of the submitted credentials, and returns the tiles of
    the response with the cursor the adapter computes, [page + 1] rounded
    to a double. *)
Theorem submit_then_search (itemId : string) (form : Form) (w : World)
  (tested : Response) (searchQuery : SearchRequest)
  (metadata : option Cursor) (response : Response) (content : list Serie) :
  net (Wire.test form) = Resolved tested ->
  status tested = 200%N ->
  net (Wire.get
         (createAuthorizationString (serverUsername form)
            (serverPassword form))
         (createKomgaAPI (serverAddress form) +:+ "/series")
         (Some (Wire.search_query searchQuery (Wire.cursor_page metadata))))
  = Resolved response ->
  data response = SeriesPage content ->
  fst (submitSourceMenuItemForm net itemId form w) = Resolved tt
  /\ fst (searchRequest net searchQuery metadata
            (snd (submitSourceMenuItemForm net itemId form w)))
     = Resolved (Wire.listing_at (createKomgaAPI (serverAddress form))
                   (Js.add (Wire.cursor_page metadata) 1) content)
  /\ Wire.dispatched
       (snd (searchRequest net searchQuery metadata
               (snd (submitSourceMenuItemForm net itemId form w))))
     = (Wire.dispatched w
        ++ [Wire.test form;
            Wire.get
              (createAuthorizationString (serverUsername form)
                 (serverPassword form))
              (createKomgaAPI (serverAddress form) +:+ "/series")
              (Some (Wire.search_query searchQuery
                       (Wire.cursor_page metadata)))])%list.
Proof.
  intros Htest H200 Hnet Hdata.
  assert (fst (submitSourceMenuItemForm net itemId form w) = Resolved tt)
    as Hok by (by rewrite submit_outcome, Htest, H200).
  split; [exact Hok|].
  pose proof (submit_resolved_state net itemId form w Hok) as Hstate.
  pose proof (submit_world itemId form w) as Hevents.
  set (w' := snd (submitSourceMenuItemForm net itemId form w)) in *.
  assert (state w' !! "komgaAPI" = Some (createKomgaAPI (serverAddress form)))
    as Hapi by (rewrite Hstate; apply lookup_insert_eq).
  assert (state w' !! "authorization"
          = Some (createAuthorizationString (serverUsername form)
                    (serverPassword form))) as Hauth.
  { rewrite Hstate. rewrite lookup_insert_ne by done.
    apply lookup_insert_eq. }
  rewrite (searchRequest_run net w' _ _ _ _ _ _ Hapi Hauth Hnet Hdata).
  split; [done|]. unfold Wire.dispatched, Wire.sent. simpl.
  rewrite Hevents, !flat_map_app. simpl. by rewrite <- app_assoc.
Qed.

(** Intercepting is idempotent: a request that has passed the interceptor
    passes it again unchanged. *)
Theorem interceptRequest_idempotent (request intercepted : Request)
  (w : World) :
  fst (KomgaRequestInterceptor.interceptRequest request w)
  = Resolved intercepted ->
  KomgaRequestInterceptor.interceptRequest intercepted w
  = (Resolved intercepted, w).
Proof.
  unfold KomgaRequestInterceptor.interceptRequest, await,
    KomgaRequestInterceptor.getAuthorizationString, await, retrieve.
  destruct request as [u m p i [h|]]; simpl.
  - destruct (h !! "authorization") as [a|] eqn:Ha; simpl.
    + intros [= <-]. simpl. by rewrite Ha.
    + destruct (state w !! "authorization") as [stored|]; simpl; [|done].
      intros [= <-]. simpl. by rewrite lookup_insert_eq.
  - rewrite lookup_empty.
    destruct (state w !! "authorization") as [stored|]; simpl; [|done].
    intros [= <-]. simpl. by rewrite lookup_insert_eq.
Qed.

End SettingsMore.

(** ** Further properties: the update poll *)

Section PollingMore.
Import Paperback Komga.

Variable net : Request -> Outcome Response.

Lemma scan_content_old (time : Js.Date) (ids : list string)
  (content : list Serie) (foundIds : list Value) :
  Exists (fun serie =>
            Js.date_ge (lastModified (metadata serie)) time = false) content ->
  snd (scan_content time ids content foundIds true) = false.
Proof.
  intros H. revert foundIds.
  induction H as [serie rest Hold|serie rest _ IH]; intros foundIds; simpl.
  - by rewrite Hold.
  - destruct (Js.date_ge _ time); [|done].
    destruct (includes ids (VSerie serie)); apply IH.
Qed.

(** The poll ends with the first page that holds an entry older than the
    cutoff (or an entry whose date does not parse): no further page is
    requested. *)
Theorem filterUpdatedManga_stops_at_old_entry (fuel : nat) (time : Js.Date)
  (ids : list string) (w : World) (api auth : string)
  (first : Response) (content : list Serie) :
  state w !! "komgaAPI" = Some api ->
  state w !! "authorization" = Some auth ->
  net (Wire.updated auth api 0) = Resolved first ->
  data first = SeriesPage content ->
  Exists (fun serie =>
            Js.date_ge (lastModified (metadata serie)) time = false) content ->
  filterUpdatedManga net (S fuel) time ids w
  = (Resolved Finished, Wire.sent w (Wire.updated auth api 0)).
Proof.
  intros Hapi Hauth H0 Hd0 Hold.
  unfold filterUpdatedManga, await at 1. rewrite (getKomgaAPI_run w api Hapi).
  simpl poll_loop. rewrite page_query_built.
  unfold await at 1. rewrite (schedule_run net w auth _ _ Hauth).
  fold (Wire.updated auth api 0). rewrite H0.
  unfold await at 1. rewrite Hd0. simpl content_of. unfold resolve at 1.
  pose proof (scan_content_finds_nothing time ids content [] true) as Hnone.
  pose proof (scan_content_old time ids content [] Hold) as Hstop.
  destruct (scan_content time ids content [] true) as [foundIds' loadMore].
  simpl in Hnone, Hstop. subst foundIds' loadMore.
  unfold await at 1. simpl. by destruct (List.length content =? 0)%nat.
Qed.



End PollingMore.

(** ** Further properties: the search query *)

Section Escaping.
Import Paperback Komga.

Lemma list_ascii_of_string_app (a b : string) :
  list_ascii_of_string (a +:+ b)
  = (list_ascii_of_string a ++ list_ascii_of_string b)%list.
Proof.
  induction a as [|c a IH]; [done|].
  change (c :: list_ascii_of_string (a +:+ b)
          = c :: (list_ascii_of_string a ++ list_ascii_of_string b)%list).
  by rewrite IH.
Qed.

Lemma hex_digit_unreserved (n : N) : Js.uri_unreserved (Js.hex_digit n) = true.
Proof.
  unfold Js.hex_digit. generalize (N.to_nat n). intros k.
  do 16 (destruct k as [|k]; [reflexivity|]). reflexivity.
Qed.

Lemma percent_escape_chars (byte : N) :
  Forall (fun c => Js.uri_unreserved c = true \/ c = "%"%char)
    (list_ascii_of_string (Js.percent_escape byte)).
Proof.
  unfold Js.percent_escape. simpl.
  constructor; [by right|].
  constructor; [left; apply hex_digit_unreserved|].
  constructor; [left; apply hex_digit_unreserved|].
  constructor.
Qed.

Lemma encodeURIComponent_chars (s : string) :
  Forall (fun c => Js.uri_unreserved c = true \/ c = "%"%char)
    (list_ascii_of_string (Js.encodeURIComponent s)).
Proof.
  induction s as [|c s IH]; [constructor|].
  simpl Js.encodeURIComponent. rewrite list_ascii_of_string_app.
  apply Forall_app. split; [|exact IH].
  destruct (Js.uri_unreserved c) eqn:E.
  - simpl. constructor; [by left|constructor].
  - unfold Js.utf8. destruct (N_of_ascii c <? 128)%N.
    + simpl. apply percent_escape_chars.
    + change (String.concat "" (map Js.percent_escape [?a; ?b]))
        with (Js.percent_escape a +:+ "" +:+ Js.percent_escape b).
      rewrite !list_ascii_of_string_app. simpl list_ascii_of_string at 2.
      rewrite app_nil_l. apply Forall_app.
      split; apply percent_escape_chars.
Qed.

Variable net : Request -> Outcome Response.

(** A title cannot change the shape of the search query: the request sent
    is [{komgaAPI}/series?page={p}&size=40&search={escaped}], and the
    escaped title holds no "&", "=", "?", "#", "/", "+" and no space. *)
Theorem search_title_escaped (w : World) (api auth title : string)
  (metadata : option Cursor) :
  state w !! "komgaAPI" = Some api ->
  state w !! "authorization" = Some auth ->
  exists escaped,
    Wire.dispatched
      (snd (searchRequest net (createSearchRequest (Some title)) metadata w))
    = (Wire.dispatched w
       ++ [Wire.get auth (api +:+ "/series")
             (Some ("?page=" +:+ Js.ToString (Wire.cursor_page metadata)
                    +:+ "&size=40&search=" +:+ escaped))])%list
    /\ forall c,
         In c (list_ascii_of_string "&=?#/+ ") ->
         ~ In c (list_ascii_of_string escaped).
Proof.
  intros Hapi Hauth. exists (Js.encodeURIComponent title). split.
  - assert (snd (searchRequest net (createSearchRequest (Some title))
                   metadata w)
            = Wire.sent w
                (Wire.get auth (api +:+ "/series")
                   (Some (Wire.search_query (createSearchRequest (Some title))
                            (Wire.cursor_page metadata))))) as ->.
    { unfold searchRequest, await at 1. rewrite (getKomgaAPI_run w api Hapi).
      fold (Wire.cursor_page metadata). rewrite search_query_built.
      unfold await at 1. rewrite (schedule_run net w auth _ _ Hauth).
      destruct (net _) as [response|message]; [|done].
      unfold await at 1. by destruct (data response). }
    unfold Wire.dispatched, Wire.sent. simpl. rewrite flat_map_app. simpl.
    done.
  - intros c Hc Hin.
    pose proof (encodeURIComponent_chars title) as Hsafe.
    rewrite Forall_forall in Hsafe. apply list_elem_of_In, Hsafe in Hin.
    simpl in Hc.
    destruct Hc as [<-|[<-|[<-|[<-|[<-|[<-|[<-|[]]]]]]]];
      by destruct Hin.
Qed.

End Escaping.

(** ** Further properties: series details and chapters *)

Section Details.
Import Paperback Komga.

Variable details : Request -> Outcome Library.Reply.
Variable reverseLangCode : string -> option string.

Lemma credit_fold (entries : list Library.Author) (authors artists : list string) :
  fold_left Library.credit entries (authors, artists)
  = ((authors
      ++ map Library.author_name
           (List.filter
              (fun entry => String.eqb (Library.author_role entry) "writer")
              entries))%list,
     (artists
      ++ map Library.author_name
           (List.filter
              (fun entry => String.eqb (Library.author_role entry) "penciller")
              entries))%list).
Proof.
  revert authors artists.
  induction entries as [|entry rest IH]; intros authors artists; simpl.
  - by rewrite !app_nil_r.
  - rewrite IH.
    destruct (String.eqb (Library.author_role entry) "writer"),
      (String.eqb (Library.author_role entry) "penciller"); simpl;
      by rewrite <- ?app_assoc.
Qed.

Lemma getMangaDetails_run (w : World) (api auth mangaId : string)
  (reply : Library.Reply) (series : Library.Series) :
  state w !! "komgaAPI" = Some api ->
  state w !! "authorization" = Some auth ->
  details (Wire.get auth (api +:+ "/series/" +:+ mangaId +:+ "/") None)
  = Resolved reply ->
  Library.reply_data reply = Library.SeriesObject series ->
  Library.getMangaDetails details mangaId w
  = (Resolved
       (Library.createManga mangaId
          [Library.series_title (Library.series_metadata series)]
          (api +:+ "/series/" +:+ mangaId +:+ "/thumbnail") 5
          (parseMangaStatus
             (Library.series_status (Library.series_metadata series)))
          (Library.language (Library.series_metadata series))
          (Js.join ", "
             (map Library.author_name
                (List.filter
                   (fun entry =>
                      String.eqb (Library.author_role entry) "penciller")
                   (Library.authors (Library.booksMetadata series)))))
          (Js.join ", "
             (map Library.author_name
                (List.filter
                   (fun entry =>
                      String.eqb (Library.author_role entry) "writer")
                   (Library.authors (Library.booksMetadata series)))))
          (if String.eqb (Library.summary (Library.series_metadata series)) ""
           then Library.books_summary (Library.booksMetadata series)
           else Library.summary (Library.series_metadata series))
          [Library.createTagSection "0" "genres"
             (map (fun elem => Library.createTag elem elem)
                (Library.genres (Library.series_metadata series)));
           Library.createTagSection "1" "tags"
             (map (fun elem => Library.createTag elem elem)
                (Library.series_tags (Library.series_metadata series)))]
          (Library.series_lastModified (Library.series_metadata series))),
     Wire.sent w
       (Wire.get auth (api +:+ "/series/" +:+ mangaId +:+ "/") None)).
Proof.
  intros Hapi Hauth Hnet Hdata.
  unfold Library.getMangaDetails, await at 1.
  rewrite (getKomgaAPI_run w api Hapi).
  unfold await at 1.
  rewrite (library_schedule_run details w auth _ _ Hauth), Hnet.
  unfold await at 1. rewrite Hdata. simpl Library.series_of.
  unfold resolve at 1. cbv beta zeta. by rewrite credit_fold.
Qed.

(** The credits of a series: the author string joins, in order and with
    ", ", the names of the entries whose role is "writer", the artist
    string those whose role is "penciller"; entries with any other role
    leave both strings as they are. *)
Theorem getMangaDetails_credits (w : World) (api auth mangaId : string)
  (reply : Library.Reply) (series : Library.Series) :
  state w !! "komgaAPI" = Some api ->
  state w !! "authorization" = Some auth ->
  details (Wire.get auth (api +:+ "/series/" +:+ mangaId +:+ "/") None)
  = Resolved reply ->
  Library.reply_data reply = Library.SeriesObject series ->
  exists manga,
    fst (Library.getMangaDetails details mangaId w) = Resolved manga
    /\ Library.author manga
       = Js.join ", "
           (map Library.author_name
              (List.filter
                 (fun entry => String.eqb (Library.author_role entry) "writer")
                 (Library.authors (Library.booksMetadata series))))
    /\ Library.artist manga
       = Js.join ", "
           (map Library.author_name
              (List.filter
                 (fun entry =>
                    String.eqb (Library.author_role entry) "penciller")
                 (Library.authors (Library.booksMetadata series))))
    /\ ((forall entry,
            In entry (Library.authors (Library.booksMetadata series)) ->
            Library.author_role entry <> "writer"
            /\ Library.author_role entry <> "penciller") ->
        Library.author manga = "" /\ Library.artist manga = "").
Proof.
  intros Hapi Hauth Hnet Hdata.
  rewrite (getMangaDetails_run w api auth mangaId reply series
             Hapi Hauth Hnet Hdata).
  eexists. split; [reflexivity|]. simpl Library.author. simpl Library.artist.
  split; [done|]. split; [done|]. intros Hother.
  assert (forall r,
             (r = "writer" \/ r = "penciller") ->
             List.filter
               (fun entry => String.eqb (Library.author_role entry) r)
               (Library.authors (Library.booksMetadata series)) = []) as Hnone.
  { intros r Hr.
    induction (Library.authors (Library.booksMetadata series))
      as [|entry rest IH]; [done|].
    simpl. destruct (String.eqb_spec (Library.author_role entry) r) as [E|_].
    - destruct (Hother entry (or_introl eq_refl)) as [H1 H2].
      destruct Hr; congruence.
    - apply IH. intros e He. apply Hother. by right. }
  rewrite !Hnone by auto. done.
Qed.

(** The description falls back from the summary of the series to the
    summary of its books exactly when the former is empty; the status is
    completed exactly for "ENDED"; the cover is the thumbnail the listings
    show for the same id; each genre and each tag becomes a tag whose id
    is its label. *)
Theorem getMangaDetails_fields (w : World) (api auth mangaId : string)
  (reply : Library.Reply) (series : Library.Series) :
  state w !! "komgaAPI" = Some api ->
  state w !! "authorization" = Some auth ->
  details (Wire.get auth (api +:+ "/series/" +:+ mangaId +:+ "/") None)
  = Resolved reply ->
  Library.reply_data reply = Library.SeriesObject series ->
  exists manga,
    fst (Library.getMangaDetails details mangaId w) = Resolved manga
    /\ (Library.summary (Library.series_metadata series) <> "" ->
        Library.desc manga = Library.summary (Library.series_metadata series))
    /\ (Library.summary (Library.series_metadata series) = "" ->
        Library.desc manga
        = Library.books_summary (Library.booksMetadata series))
    /\ (Library.manga_status manga = COMPLETED <->
        Library.series_status (Library.series_metadata series) = "ENDED")
    /\ (forall entry,
           serie_id entry = mangaId ->
           Library.manga_image manga = image (Wire.tile api entry))
    /\ map (fun section =>
              (Library.section_label section,
               map Library.tag_label (Library.section_tags section)))
         (Library.manga_tags manga)
       = [("genres", Library.genres (Library.series_metadata series));
          ("tags", Library.series_tags (Library.series_metadata series))]
    /\ Forall (fun section =>
                 Forall (fun tag => Library.tag_id tag = Library.tag_label tag)
                   (Library.section_tags section))
         (Library.manga_tags manga).
Proof.
  intros Hapi Hauth Hnet Hdata.
  rewrite (getMangaDetails_run w api auth mangaId reply series
             Hapi Hauth Hnet Hdata).
  eexists. split; [reflexivity|]. cbn [Library.desc Library.manga_status
    Library.manga_image Library.manga_tags].
  split; [|split; [|split; [|split; [|split]]]].
  - intros H. by destruct (String.eqb_spec
                             (Library.summary (Library.series_metadata series))
                             "").
  - intros ->. reflexivity.
  - unfold parseMangaStatus.
    destruct (String.eqb_spec
                (Library.series_status (Library.series_metadata series))
                "ENDED") as [->|Hne]; [done|].
    split; [|done]. by repeat case_match.
  - intros entry <-. reflexivity.
  - simpl. rewrite !map_map. simpl. by rewrite !map_id.
  - repeat constructor; apply Forall_forall; intros tag Htag;
      apply list_elem_of_In, in_map_iff in Htag;
      by destruct Htag as (elem & <- & _).
Qed.

Lemma getChapters_run (w : World) (api auth mangaId : string)
  (listed : Library.Reply) (books : list Library.Book)
  (parent : Library.Reply) (series : Library.Series) :
  state w !! "komgaAPI" = Some api ->
  state w !! "authorization" = Some auth ->
  details (Wire.get auth (api +:+ "/series/" +:+ mangaId +:+ "/books")
             (Some "?unpaged=true&media_status=READY"))
  = Resolved listed ->
  Library.reply_data listed = Library.BookPage books ->
  details (Wire.get auth (api +:+ "/series/" +:+ mangaId +:+ "/") None)
  = Resolved parent ->
  Library.reply_data parent = Library.SeriesObject series ->
  fst (Library.getChapters details reverseLangCode mangaId w)
  = Resolved
      (map (fun book =>
              Library.createChapter (Library.book_id book) mangaId
                (Library.numberSort (Library.book_metadata book))
                (match reverseLangCode
                         (Library.language (Library.series_metadata series))
                 with
                 | Some code => Some code
                 | None => reverseLangCode "_unknown"
                 end)
                (Library.book_number (Library.book_metadata book) +:+ " - "
                 +:+ Library.book_title (Library.book_metadata book) +:+ " ("
                 +:+ Library.size book +:+ ")")
                (Library.fileLastModified book))
         books).
Proof.
  intros Hapi Hauth Hl Hld Hp Hpd.
  unfold Library.getChapters, await at 1.
  rewrite (getKomgaAPI_run w api Hapi).
  unfold await at 1.
  rewrite (library_schedule_run details w auth _ _ Hauth), Hl.
  unfold await at 1.
  rewrite library_schedule_run with (auth := auth) by exact Hauth.
  rewrite Hp. unfold await at 1. rewrite Hpd. simpl Library.series_of.
  unfold resolve at 1. cbv beta zeta. rewrite Hld.
  unfold await, Library.books_of, resolve. simpl. by rewrite for_push_map.
Qed.

(** The chapters of a series: one per book of the unpaged list of ready
    books, in the order of the list, each with the id, the sort number and
    the file date of its book and the name "{number} - {title} ({size})";
    all carry the requested series id and one language code, that of the
    language of the series or, when the table has none, that of
    "_unknown". *)
Theorem getChapters_chapters (w : World) (api auth mangaId : string)
  (listed : Library.Reply) (books : list Library.Book)
  (parent : Library.Reply) (series : Library.Series) :
  state w !! "komgaAPI" = Some api ->
  state w !! "authorization" = Some auth ->
  details (Wire.get auth (api +:+ "/series/" +:+ mangaId +:+ "/books")
             (Some "?unpaged=true&media_status=READY"))
  = Resolved listed ->
  Library.reply_data listed = Library.BookPage books ->
  details (Wire.get auth (api +:+ "/series/" +:+ mangaId +:+ "/") None)
  = Resolved parent ->
  Library.reply_data parent = Library.SeriesObject series ->
  exists chapters,
    fst (Library.getChapters details reverseLangCode mangaId w)
    = Resolved chapters
    /\ List.length chapters = List.length books
    /\ (forall i book,
           books !! i = Some book ->
           exists chapter,
             chapters !! i = Some chapter
             /\ Library.chap_id chapter = Library.book_id book
             /\ Library.chapNum chapter
                = Library.numberSort (Library.book_metadata book)
             /\ Library.chap_time chapter = Library.fileLastModified book
             /\ Library.chap_name chapter
                = Library.book_number (Library.book_metadata book) +:+ " - "
                  +:+ Library.book_title (Library.book_metadata book)
                  +:+ " (" +:+ Library.size book +:+ ")")
    /\ (forall chapter,
           In chapter chapters ->
           Library.chap_mangaId chapter = mangaId
           /\ (forall code,
                  reverseLangCode
                    (Library.language (Library.series_metadata series))
                  = Some code ->
                  Library.langCode chapter = Some code)
           /\ (reverseLangCode
                 (Library.language (Library.series_metadata series)) = None ->
               Library.langCode chapter = reverseLangCode "_unknown")).
Proof.
  intros Hapi Hauth Hl Hld Hp Hpd.
  rewrite (getChapters_run w api auth mangaId listed books parent series
             Hapi Hauth Hl Hld Hp Hpd).
  eexists. split; [reflexivity|]. split; [apply length_map|]. split.
  - intros i book Hi. eexists. split.
    + change (map ?f books) with (f <$> books).
      rewrite list_lookup_fmap, Hi. reflexivity.
    + done.
  - intros chapter Hin. apply in_map_iff in Hin.
    destruct Hin as (book & <- & _). simpl. split; [done|]. split.
    + by intros code ->.
    + by intros ->.
Qed.

(** The chapters need the series too: when the books are listed but the
    series cannot be fetched, the call rejects with the failure of the
    second request and no chapter is returned. *)
Theorem getChapters_needs_series (w : World) (api auth mangaId : string)
  (listed : Library.Reply) (message : string) :
  state w !! "komgaAPI" = Some api ->
  state w !! "authorization" = Some auth ->
  details (Wire.get auth (api +:+ "/series/" +:+ mangaId +:+ "/books")
             (Some "?unpaged=true&media_status=READY"))
  = Resolved listed ->
  details (Wire.get auth (api +:+ "/series/" +:+ mangaId +:+ "/") None)
  = Rejected message ->
  Library.getChapters details reverseLangCode mangaId w
  = (Rejected message,
     Wire.sent
       (Wire.sent w
          (Wire.get auth (api +:+ "/series/" +:+ mangaId +:+ "/books")
             (Some "?unpaged=true&media_status=READY")))
       (Wire.get auth (api +:+ "/series/" +:+ mangaId +:+ "/") None)).
Proof.
  intros Hapi Hauth Hl Hp.
  unfold Library.getChapters, await at 1.
  rewrite (getKomgaAPI_run w api Hapi).
  unfold await at 1.
  rewrite (library_schedule_run details w auth _ _ Hauth), Hl.
  unfold await at 1.
  rewrite library_schedule_run with (auth := auth) by exact Hauth.
  by rewrite Hp.
Qed.

End Details.

(** ** Further properties: the home page *)

Section HomePage.
Import Paperback Komga.

Variable net : Request -> Outcome Response.

Lemma home_start_two (w : World) (api auth : string)
  (first second : Home.HomeSection) :
  state w !! "authorization" = Some auth ->
  Home.start net api [first; second] w
  = (Resolved
       [Home.populate api first
          (net (Wire.get auth (api +:+ "/series/" +:+ Home.home_id first)
                  (Some "?page=0&size=20")));
        Home.populate api second
          (net (Wire.get auth (api +:+ "/series/" +:+ Home.home_id second)
                  (Some "?page=0&size=20")))],
     Wire.sent
       (Wire.sent w
          (Wire.get auth (api +:+ "/series/" +:+ Home.home_id first)
             (Some "?page=0&size=20")))
       (Wire.get auth (api +:+ "/series/" +:+ Home.home_id second)
          (Some "?page=0&size=20"))).
Proof.
  intros Hauth. simpl Home.start.
  unfold await at 1, Home.settle at 1.
  rewrite (schedule_run net w auth _ _ Hauth).
  cbv beta iota zeta.
  unfold await at 1. unfold await at 1, Home.settle at 1.
  rewrite schedule_run with (auth := auth) by exact Hauth.
  reflexivity.
Qed.

Lemma populate_listed (api : string) (section : Home.HomeSection)
  (response : Response) (content : list Serie) :
  data response = SeriesPage content ->
  Home.populate api section (Resolved response)
  = Resolved
      (Home.createHomeSection (Home.home_id section) (Home.home_title section)
         (Home.view_more section) (Some (map (Wire.tile api) content))).
Proof.
  intros H. unfold Home.populate. rewrite H. by rewrite for_push_map.
Qed.

(** With both listings fetched, the callback receives four sections: the
    two empty ones first, "new" before "updated", then each section again
    with the tiles of its first twenty entries, in the order in which the
    fetches settle.  Whatever that order, every section is handed over
    empty before it is handed over filled, and the call resolves. *)
Theorem getHomePageSections_sections (reversed : bool) (w : World)
  (api auth : string) (added updated : Response)
  (recent changed : list Serie) :
  state w !! "komgaAPI" = Some api ->
  state w !! "authorization" = Some auth ->
  net (Wire.get auth (api +:+ "/series/new") (Some "?page=0&size=20"))
  = Resolved added ->
  data added = SeriesPage recent ->
  net (Wire.get auth (api +:+ "/series/updated") (Some "?page=0&size=20"))
  = Resolved updated ->
  data updated = SeriesPage changed ->
  Home.outcome (fst (Home.getHomePageSections net reversed w)) = Resolved tt
  /\ Home.callbacks (fst (Home.getHomePageSections net reversed w))
     = ([Home.createHomeSection "new" "Recently added series" true None;
         Home.createHomeSection "updated" "Recently updated series" true None]
        ++ (if reversed then @rev Home.HomeSection else (fun l => l))
             [Home.createHomeSection "new" "Recently added series" true
                (Some (map (Wire.tile api) recent));
              Home.createHomeSection "updated" "Recently updated series" true
                (Some (map (Wire.tile api) changed))])%list
  /\ Wire.dispatched (snd (Home.getHomePageSections net reversed w))
     = (Wire.dispatched w
        ++ [Wire.get auth (api +:+ "/series/new") (Some "?page=0&size=20");
            Wire.get auth (api +:+ "/series/updated")
              (Some "?page=0&size=20")])%list.
Proof.
  intros Hapi Hauth Hn Hnd Hu Hud.
  unfold Home.getHomePageSections. rewrite Hapi.
  rewrite (home_start_two w api auth _ _ Hauth).
  cbn [Home.home_id].
  change ("/series/" +:+ "new") with "/series/new".
  change ("/series/" +:+ "updated") with "/series/updated".
  rewrite Hn, Hu.
  rewrite (populate_listed api _ added recent Hnd).
  rewrite (populate_listed api _ updated changed Hud).
  cbn [Home.home_id Home.home_title Home.view_more].
  split; [by destruct reversed|]. split; [by destruct reversed|].
  cbn [snd]. unfold Wire.dispatched, Wire.sent. simpl.
  rewrite !flat_map_app. simpl. by rewrite <- app_assoc.
Qed.

(** The two fetches are independent: when one listing cannot be fetched
    the other section is still handed over filled, and the call rejects
    with the message of the failed fetch. *)
Theorem getHomePageSections_partial (reversed : bool) (w : World)
  (api auth message : string) (updated : Response) (changed : list Serie) :
  state w !! "komgaAPI" = Some api ->
  state w !! "authorization" = Some auth ->
  net (Wire.get auth (api +:+ "/series/new") (Some "?page=0&size=20"))
  = Rejected message ->
  net (Wire.get auth (api +:+ "/series/updated") (Some "?page=0&size=20"))
  = Resolved updated ->
  data updated = SeriesPage changed ->
  Home.outcome (fst (Home.getHomePageSections net reversed w))
  = Rejected message
  /\ Home.callbacks (fst (Home.getHomePageSections net reversed w))
     = [Home.createHomeSection "new" "Recently added series" true None;
        Home.createHomeSection "updated" "Recently updated series" true None;
        Home.createHomeSection "updated" "Recently updated series" true
          (Some (map (Wire.tile api) changed))].
Proof.
  intros Hapi Hauth Hn Hu Hud.
  unfold Home.getHomePageSections. rewrite Hapi.
  rewrite (home_start_two w api auth _ _ Hauth).
  cbn [Home.home_id].
  change ("/series/" +:+ "new") with "/series/new".
  change ("/series/" +:+ "updated") with "/series/updated".
  rewrite Hn, Hu.
  rewrite (populate_listed api _ updated changed Hud).
  cbn [Home.home_id Home.home_title Home.view_more].
  by destruct reversed.
Qed.

End HomePage.

(** ** Further properties: the settings of the first revision *)

Section DemoSettings.
Import Paperback Komga.

(** In the first revision a submitted form takes effect at once: the call
    resolves without a request, the form shown afterwards holds the
    submitted values, and the API address and the authorization derived
    on the next call are the ones release 1.1.3 stores after a successful
    test; no other key of the store is touched. *)
Theorem demo_settings_take_effect (itemId shown : string) (form : Form)
  (w : World) :
  fst (Komga_demo_settings.submitSourceMenuItemForm itemId form w)
  = Resolved tt
  /\ events (snd (Komga_demo_settings.submitSourceMenuItemForm itemId form w))
     = events w
  /\ fst (Komga_demo.getKomgaAPI
            (snd (Komga_demo_settings.submitSourceMenuItemForm itemId form w)))
     = Resolved (createKomgaAPI (serverAddress form))
  /\ fst (Komga_demo_settings.getAuthorizationString
            (snd (Komga_demo_settings.submitSourceMenuItemForm itemId form w)))
     = Resolved (createAuthorizationString (serverUsername form)
                   (serverPassword form))
  /\ (exists userForm,
         fst (Komga_demo_settings.getSourceMenuItemForm shown
                (snd (Komga_demo_settings.submitSourceMenuItemForm itemId
                        form w)))
         = Resolved userForm
         /\ map (fun field =>
                   (Komga_demo_settings.field_id field,
                    Komga_demo_settings.field_value field))
              (Komga_demo_settings.formElements userForm)
            = [("serverAddress", Some (serverAddress form));
               ("serverUsername", Some (serverUsername form));
               ("serverPassword", Some (serverPassword form))])
  /\ (forall key,
         ~ In key ["serverAddress"; "serverUsername"; "serverPassword"] ->
         state (snd (Komga_demo_settings.submitSourceMenuItemForm itemId
                       form w)) !! key
         = state w !! key).
Proof.
  assert (Komga_demo_settings.submitSourceMenuItemForm itemId form w
          = (Resolved tt,
             {| state := Wire.with_fields form (state w);
                events := events w |})) as ->.
  { reflexivity. }
  cbn [fst snd state events]. split; [done|]. split; [done|].
  assert (Wire.with_fields form (state w) !! "serverAddress"
          = Some (serverAddress form)) as Ha.
  { unfold Wire.with_fields. rewrite !lookup_insert_ne by done.
    apply lookup_insert_eq. }
  assert (Wire.with_fields form (state w) !! "serverUsername"
          = Some (serverUsername form)) as Hu.
  { unfold Wire.with_fields. rewrite lookup_insert_ne by done.
    apply lookup_insert_eq. }
  assert (Wire.with_fields form (state w) !! "serverPassword"
          = Some (serverPassword form)) as Hp.
  { unfold Wire.with_fields. apply lookup_insert_eq. }
  split; [|split; [|split]].
  - unfold Komga_demo.getKomgaAPI, await, retrieve. cbn [state].
    by rewrite Ha.
  - unfold Komga_demo_settings.getAuthorizationString, await, retrieve.
    cbn [state]. by rewrite Hu, Hp.
  - unfold Komga_demo_settings.getSourceMenuItemForm, await, retrieve.
    cbn [state]. rewrite Ha, Hu, Hp. eexists. split; reflexivity.
  - intros key Hkey. unfold Wire.with_fields.
    rewrite !lookup_insert_ne; [done|..]; intros <-; apply Hkey; simpl; tauto.
Qed.

End DemoSettings.

(** ** Further properties: the authorization string *)

Section Authorization.
Import Paperback Komga.

Lemma base64_digit_value (n : N) :
  (n < 64)%N -> Report.base64_value (Js.base64_digit n) = Some n.
Proof.
  intros H.
  assert (In n (map N.of_nat (seq 0 64))) as Hin.
  { apply in_map_iff. exists (N.to_nat n). split; [lia|].
    apply in_seq. lia. }
  simpl in Hin.
  repeat (destruct Hin as [<-|Hin]; [reflexivity|]). destruct Hin.
Qed.

Lemma base64_digit_inj (n m : N) :
  (n < 64)%N -> (m < 64)%N ->
  Js.base64_digit n = Js.base64_digit m -> n = m.
Proof.
  intros Hn Hm H. apply base64_digit_value in Hn, Hm.
  rewrite H in Hn. congruence.
Qed.

Lemma base64_digit_not_pad (n : N) :
  (n < 64)%N -> Js.base64_digit n <> "="%char.
Proof.
  intros Hn H. apply base64_digit_value in Hn. rewrite H in Hn.
  discriminate Hn.
Qed.

Lemma list_by_three {A : Type} (P : list A -> Prop) :
  P [] -> (forall a, P [a]) -> (forall a b, P [a; b]) ->
  (forall a b c l, P l -> P (a :: b :: c :: l)) ->
  forall l, P l.
Proof.
  intros H0 H1 H2 H3.
  assert (forall l, P l /\ (forall a, P (a :: l))
                    /\ (forall a b, P (a :: b :: l))) as H.
  { induction l as [|x l (IH0 & IH1 & IH2)].
    - by repeat split.
    - split; [exact (IH1 x)|]. split; [exact (fun a => IH2 a x)|].
      intros a b. by apply H3. }
  intros l. apply H.
Qed.

Ltac euclid a d :=
  pose proof (N.div_mod' a d);
  pose proof (N.mod_lt a d ltac:(done));
  let q := fresh "q" in
  let r := fresh "r" in
  set (q := (a / d)%N) in *; set (r := (a mod d)%N) in *; clearbody q r.

Ltac pad_absurd :=
  match goal with
  | E : "="%char = Js.base64_digit _ |- _ =>
      symmetry in E; apply base64_digit_not_pad in E; [done|lia]
  | E : Js.base64_digit _ = "="%char |- _ =>
      apply base64_digit_not_pad in E; [done|lia]
  end.

Ltac digits :=
  repeat match goal with
         | E : Js.base64_digit _ = Js.base64_digit _ |- _ =>
             apply base64_digit_inj in E; [|lia..]
         end.

Lemma base64_bytes_inj (l l' : list N) :
  Forall (fun b => (b < 256)%N) l -> Forall (fun b => (b < 256)%N) l' ->
  Js.base64_bytes l = Js.base64_bytes l' -> l = l'.
Proof.
  revert l'. induction l as [|a|a b|a b c l IH] using list_by_three;
    intros l' Hl Hl' H;
    destruct l' as [|a' [|b' [|c' l']]]; cbn [Js.base64_bytes] in H;
    try discriminate H;
    repeat match goal with
           | F : Forall _ (_ :: _) |- _ => apply Forall_cons in F; destruct F
           end;
    try (injection H; clear H; intros); cbv beta in *.
  - done.
  - euclid a 4%N. euclid a' 4%N. digits. f_equal. lia.
  - euclid b' 16%N. pad_absurd.
  - euclid b' 16%N. euclid c' 64%N. pad_absurd.
  - euclid b 16%N. pad_absurd.
  - euclid a 4%N. euclid a' 4%N. euclid b 16%N. euclid b' 16%N. digits.
    f_equal; [lia|]. f_equal. lia.
  - euclid c' 64%N. pad_absurd.
  - euclid b 16%N. euclid c 64%N. pad_absurd.
  - euclid c 64%N. pad_absurd.
  - euclid a 4%N. euclid a' 4%N. euclid b 16%N. euclid b' 16%N.
    euclid c 64%N. euclid c' 64%N. digits.
    f_equal; [lia|]. f_equal; [lia|]. f_equal; [lia|]. by apply IH.
Qed.

Lemma binary_bytes_bounded (s : string) :
  Forall (fun b => (b < 256)%N) (Js.binary_bytes s).
Proof.
  unfold Js.binary_bytes.
  induction (list_ascii_of_string s) as [|c l IH]; simpl; constructor;
    [apply N_ascii_bounded|exact IH].
Qed.

Lemma utf16_bytes_bounded (s : list N) :
  Forall (fun b => (b < 256)%N) (Utf16.binary_bytes s).
Proof.
  unfold Utf16.binary_bytes. apply Forall_map, Forall_true.
  intros unit. by apply N.mod_lt.
Qed.

Lemma utf16_bytes_latin1 (s : list N) :
  Forall (fun unit => (unit < 256)%N) s -> Utf16.binary_bytes s = s.
Proof.
  unfold Utf16.binary_bytes. induction 1 as [|unit s Hunit _ IH]; [done|].
  simpl. rewrite IH. f_equal. by apply N.mod_small.
Qed.

Lemma units_bounded (s : string) :
  Forall (fun unit => (unit < 256)%N) (Utf16.units s).
Proof. apply binary_bytes_bounded. Qed.

Lemma units_app (a b : string) :
  Utf16.units (a +:+ b) = (Utf16.units a ++ Utf16.units b)%list.
Proof. unfold Utf16.units. by rewrite list_ascii_of_string_app, map_app. Qed.

(** Two pairs of credentials get the same authorization string exactly
    when the strings they read once joined by ":" have the same low byte
    in every code unit.  On Latin-1 credentials the string is the one of
    the settings modules, and two pairs collide only when they read the
    same once joined.  A colon in the user name cannot be told from the
    separator, and a code unit above 255 cannot be told from its low
    byte. *)
Theorem createAuthorizationString_collisions :
  (forall username password username' password' : list N,
      Utf16.createAuthorizationString username password
      = Utf16.createAuthorizationString username' password'
      <-> Utf16.binary_bytes (username ++ Utf16.units ":" ++ password)%list
          = Utf16.binary_bytes
              (username' ++ Utf16.units ":" ++ password')%list)
  /\ (forall username password : string,
         Utf16.createAuthorizationString (Utf16.units username)
           (Utf16.units password)
         = createAuthorizationString username password)
  /\ (forall username password username' password' : list N,
         Forall (fun unit => (unit < 256)%N) username ->
         Forall (fun unit => (unit < 256)%N) password ->
         Forall (fun unit => (unit < 256)%N) username' ->
         Forall (fun unit => (unit < 256)%N) password' ->
         Utf16.createAuthorizationString username password
         = Utf16.createAuthorizationString username' password'
         <-> (username ++ Utf16.units ":" ++ password
              = username' ++ Utf16.units ":" ++ password')%list)
  /\ (forall u p q : list N,
         Utf16.createAuthorizationString (u ++ Utf16.units ":" ++ p)%list q
         = Utf16.createAuthorizationString u
             (p ++ Utf16.units ":" ++ q)%list)
  /\ (forall (u v password : list N) (unit : N),
         Utf16.createAuthorizationString (u ++ (unit + 256)%N :: v)%list
           password
         = Utf16.createAuthorizationString (u ++ unit :: v)%list password).
Proof.
  assert (forall username password username' password' : list N,
             Utf16.createAuthorizationString username password
             = Utf16.createAuthorizationString username' password'
             <-> Utf16.binary_bytes
                   (username ++ Utf16.units ":" ++ password)%list
                 = Utf16.binary_bytes
                     (username' ++ Utf16.units ":" ++ password')%list)
    as Hlow.
  { intros username password username' password'.
    unfold Utf16.createAuthorizationString. split.
    - intros H. apply (String.app_inj "Basic ") in H.
      apply base64_bytes_inj; [apply utf16_bytes_bounded..|exact H].
    - by intros ->. }
  split; [exact Hlow|]. split; [|split; [|split]].
  - intros username password.
    unfold Utf16.createAuthorizationString, createAuthorizationString,
      Js.base64.
    rewrite <- !units_app, utf16_bytes_latin1 by apply units_bounded.
    reflexivity.
  - intros username password username' password' Hu Hp Hu' Hp'.
    rewrite Hlow, !utf16_bytes_latin1; [done|..];
      repeat (apply Forall_app; split); try done; apply units_bounded.
  - intros u p q. apply Hlow. by rewrite <- !app_assoc.
  - intros u v password unit. apply Hlow.
    unfold Utf16.binary_bytes. rewrite <- !app_assoc, !map_app. simpl.
    do 2 f_equal.
    rewrite <- (N.Div0.add_mod_idemp_r unit 256 256), N.Div0.mod_same.
    by rewrite N.add_0_r.
Qed.

End Authorization.

(** ** Instances of the further statements *)

(** A test answered with 200 on the configured adapter. *)
Lemma submit_success_persists_witness :
  fst (Komga.submitSourceMenuItemForm (Scenario.status_server 200)
         "serverSettings" Scenario.new_form Scenario.configured)
  = Paperback.Resolved tt
  /\ Paperback.state
       (snd (Komga.submitSourceMenuItemForm (Scenario.status_server 200)
               "serverSettings" Scenario.new_form Scenario.configured))
     !! "komgaAPI" = Some "http://new/api/v1".
Proof.
  destruct (submit_success_persists (Scenario.status_server 200)
              "serverSettings" Scenario.new_form Scenario.configured
              _ eq_refl eq_refl) as [Hok Hkeys].
  split; [exact Hok|]. apply Hkeys. simpl. tauto.
Defined.

(** A test answered with 401 on the configured adapter. *)
Lemma submit_failure_keeps_derived_witness :
  Paperback.state
    (snd (Komga.submitSourceMenuItemForm (Scenario.status_server 401)
            "serverSettings" Scenario.new_form Scenario.configured))
  !! "authorization" = Some "Basic b2xkOm9sZA=="
  /\ Paperback.state
       (snd (Komga.submitSourceMenuItemForm (Scenario.status_server 401)
               "serverSettings" Scenario.new_form Scenario.configured))
     !! "komgaAPI" = Some "http://komga/api/v1".
Proof.
  exact (submit_failure_keeps_derived (Scenario.status_server 401)
           "serverSettings" Scenario.new_form Scenario.configured
           "401 Unauthorized: Invalid credentials" eq_refl).
Defined.

(** A server that answers 503. *)
Lemma submit_reports_failure_witness :
  fst (Komga.submitSourceMenuItemForm (Scenario.status_server 503)
         "serverSettings" Scenario.new_form Cases.fresh)
  = Paperback.Rejected "Connection failed with status code 503"
  /\ fst (Komga.submitSourceMenuItemForm Scenario.down_server
            "serverSettings" Scenario.new_form Cases.fresh)
     = Paperback.Rejected
         "Could not connect to server: AsyncOperationTimedOutError".
Proof.
  split.
  - apply (proj1 (proj2 (proj2 (submit_reports_failure
                                  (Scenario.status_server 503)
                                  "serverSettings" Scenario.new_form
                                  Cases.fresh)))
             _ eq_refl); discriminate.
  - exact (proj1 (submit_reports_failure Scenario.down_server
                    "serverSettings" Scenario.new_form Cases.fresh)
             _ eq_refl).
Defined.

(** The first configuration of a fresh adapter, followed by a search. *)
Lemma submit_then_search_witness :
  fst (Komga.searchRequest (Scenario.status_server 200)
         (Paperback.createSearchRequest (Some "saga")) None
         (snd (Komga.submitSourceMenuItemForm (Scenario.status_server 200)
                 "serverSettings" Scenario.new_form Cases.fresh)))
  = Paperback.Resolved (Wire.listing_at "http://new/api/v1" 1 [])
  /\ Wire.dispatched
       (snd (Komga.searchRequest (Scenario.status_server 200)
               (Paperback.createSearchRequest (Some "saga")) None
               (snd (Komga.submitSourceMenuItemForm
                       (Scenario.status_server 200)
                       "serverSettings" Scenario.new_form Cases.fresh))))
     = [Wire.test Scenario.new_form;
        Wire.get "Basic dXNlcjpzZWNyZXQ=" "http://new/api/v1/series"
          (Some "?page=0&size=40&search=saga")].
Proof.
  exact (proj2 (submit_then_search (Scenario.status_server 200)
                  "serverSettings" Scenario.new_form Cases.fresh
                  {| Paperback.status := 200;
                     Paperback.data := Paperback.SeriesPage [] |}
                  (Paperback.createSearchRequest (Some "saga")) None
                  {| Paperback.status := 200;
                     Paperback.data := Paperback.SeriesPage [] |}
                  [] eq_refl eq_refl eq_refl eq_refl)).
Defined.

(** A plain request on the configured adapter, intercepted twice. *)
Lemma interceptRequest_idempotent_witness :
  Komga.KomgaRequestInterceptor.interceptRequest
    (Wire.get "Basic b2xkOm9sZA==" "http://komga/api/v1/series" None)
    Scenario.configured
  = (Paperback.Resolved
       (Wire.get "Basic b2xkOm9sZA==" "http://komga/api/v1/series" None),
     Scenario.configured).
Proof.
  exact (interceptRequest_idempotent
           (Paperback.createRequestObject "http://komga/api/v1/series" "GET"
              None None None)
           (Wire.get "Basic b2xkOm9sZA==" "http://komga/api/v1/series" None)
           Scenario.configured eq_refl).
Defined.

(** A fresh adapter. *)
Lemma unset_server_rejects_witness :
  Komga.searchRequest Scenario.one_page_server
    (Paperback.createSearchRequest None) None Cases.fresh
  = (Paperback.Rejected "Unset server URL in source settings", Cases.fresh)
  /\ Library.getChapters Cases.library_server Cases.codes "M1" Cases.fresh
     = (Paperback.Rejected "Unset server URL in source settings", Cases.fresh)
  /\ map Home.home_id
       (Home.callbacks
          (fst (Home.getHomePageSections Scenario.one_page_server false
                  Cases.fresh)))
     = ["unset"].
Proof.
  pose proof (unset_server_rejects Scenario.one_page_server
                Cases.library_server Cases.codes Cases.fresh eq_refl)
    as (Hsearch & _ & _ & _ & _ & Hchapters & Hhome).
  split; [apply Hsearch|]. split; [apply Hchapters|].
  by rewrite (Hhome false).
Defined.

(** An adapter with a server URL only. *)
Lemma unset_credentials_reject_witness :
  Komga.getChapterDetails (Scenario.book_server "WEBTOON") "M1" "B1"
    Cases.half_configured
  = (Paperback.Rejected "Unset credentials in source settings",
     Cases.half_configured)
  /\ Komga.filterUpdatedManga Scenario.updated_server 3 (Some 1000%Z) ["A"]
       Cases.half_configured
     = (Paperback.Rejected "Unset credentials in source settings",
        Cases.half_configured)
  /\ Home.outcome
       (fst (Home.getHomePageSections Cases.home_server false
               Cases.half_configured))
     = Paperback.Rejected "Unset credentials in source settings"
  /\ List.length
       (Home.callbacks
          (fst (Home.getHomePageSections Cases.home_server false
                  Cases.half_configured)))
     = 2%nat.
Proof.
  pose proof (unset_credentials_reject (Scenario.book_server "WEBTOON")
                Cases.library_server Cases.codes Cases.half_configured
                "http://komga/api/v1" eq_refl eq_refl)
    as (_ & _ & Hchapter & _).
  pose proof (unset_credentials_reject Scenario.updated_server
                Cases.library_server Cases.codes Cases.half_configured
                "http://komga/api/v1" eq_refl eq_refl)
    as (_ & _ & _ & Hpoll & _).
  pose proof (unset_credentials_reject Cases.home_server
                Cases.library_server Cases.codes Cases.half_configured
                "http://komga/api/v1" eq_refl eq_refl)
    as (_ & _ & _ & _ & _ & _ & Hhome).
  split; [apply Hchapter|]. split; [apply Hpoll|].
  by rewrite (Hhome false).
Defined.

(** A server that cannot be reached. *)
Lemma listing_failure_is_final_witness :
  fst (Komga.searchRequest Scenario.down_server
         (Paperback.createSearchRequest None) None Scenario.configured)
  = Paperback.Rejected "AsyncOperationTimedOutError"
  /\ Wire.dispatched
       (snd (Komga.getViewMoreItems Scenario.down_server "new" None
               Scenario.configured))
     = [Wire.get "Basic b2xkOm9sZA==" "http://komga/api/v1/series/new"
          (Some "?page=0&size=40")].
Proof.
  pose proof (listing_failure_is_final Scenario.down_server
                Scenario.configured "http://komga/api/v1"
                "Basic b2xkOm9sZA==" eq_refl eq_refl)
    as (Hsearch & Hmore & _).
  split.
  - by rewrite (Hsearch (Paperback.createSearchRequest None) None
                  "AsyncOperationTimedOutError" eq_refl).
  - by rewrite (Hmore "new" None "AsyncOperationTimedOutError" eq_refl).
Defined.

(** A server that cannot be reached, asked for a chapter. *)
Lemma getChapterDetails_failures_witness :
  Wire.dispatched
    (snd (Komga.getChapterDetails Scenario.down_server "M1" "B1"
            Scenario.configured))
  = [Wire.get "Basic b2xkOm9sZA==" "http://komga/api/v1/books/B1/pages" None].
Proof.
  pose proof (getChapterDetails_failures Scenario.down_server
                Scenario.configured "http://komga/api/v1"
                "Basic b2xkOm9sZA==" "M1" "B1" eq_refl eq_refl)
    as (Hpages & _).
  by rewrite (Hpages "AsyncOperationTimedOutError" eq_refl).
Defined.

(** A title full of reserved characters. *)
Lemma search_title_escaped_witness :
  exists escaped,
    Wire.dispatched
      (snd (Komga.searchRequest Scenario.one_page_server
              (Paperback.createSearchRequest (Some "a&b=c d")) None
              Scenario.configured))
    = [Wire.get "Basic b2xkOm9sZA==" "http://komga/api/v1/series"
         (Some ("?page=0&size=40&search=" +:+ escaped))]
    /\ ~ In "&"%char (list_ascii_of_string escaped).
Proof.
  destruct (search_title_escaped Scenario.one_page_server
              Scenario.configured "http://komga/api/v1" "Basic b2xkOm9sZA=="
              "a&b=c d" None eq_refl eq_refl) as (escaped & Hsent & Hsafe).
  exists escaped. split; [exact Hsent|]. apply Hsafe. simpl. tauto.
Defined.

(** One page of updates, then an empty page. *)
Lemma filterUpdatedManga_stops_after_empty_page_witness :
  fst (Komga.filterUpdatedManga Scenario.updated_server 7 (Some 1000%Z) ["A"]
         Scenario.configured)
  = Paperback.Resolved Komga.Finished
  /\ List.length
       (Wire.dispatched
          (snd (Komga.filterUpdatedManga Scenario.updated_server 7
                  (Some 1000%Z) ["A"] Scenario.configured)))
     = 2%nat.
Proof.
  destruct (filterUpdatedManga_stops_after_empty_page
              Scenario.updated_server 5 (Some 1000%Z) ["A"]
              Scenario.configured "http://komga/api/v1" "Basic b2xkOm9sZA=="
              {| Paperback.status := 200;
                 Paperback.data :=
                   Paperback.SeriesPage
                     [Scenario.serie_of "A" "LEFT_TO_RIGHT" 2000] |}
              {| Paperback.status := 200;
                 Paperback.data := Paperback.SeriesPage [] |}
              _ eq_refl eq_refl eq_refl eq_refl
              ltac:(discriminate) ltac:(by repeat constructor)
              eq_refl eq_refl) as [Hdone Hsent].
  split; [exact Hdone|]. by rewrite Hsent.
Defined.

(** A first page whose second entry is older than the cutoff. *)
Lemma filterUpdatedManga_stops_at_old_entry_witness :
  fst (Komga.filterUpdatedManga Cases.stale_server 7 (Some 1000%Z) ["A"]
         Scenario.configured)
  = Paperback.Resolved Komga.Finished
  /\ Wire.dispatched
       (snd (Komga.filterUpdatedManga Cases.stale_server 7 (Some 1000%Z)
               ["A"] Scenario.configured))
     = [Wire.updated "Basic b2xkOm9sZA==" "http://komga/api/v1" 0].
Proof.
  rewrite (filterUpdatedManga_stops_at_old_entry Cases.stale_server 6
             (Some 1000%Z) ["A"] Scenario.configured "http://komga/api/v1"
             "Basic b2xkOm9sZA==" _ _ eq_refl eq_refl eq_refl eq_refl
             ltac:(by right; left)).
  by split.
Defined.


(** The credits of [Cases.saga]: two writers, one penciller, and a
    colorist who is left out. *)
Lemma getMangaDetails_credits_witness :
  exists manga,
    fst (Library.getMangaDetails Cases.library_server "M1"
           Scenario.configured)
    = Paperback.Resolved manga
    /\ Library.author manga = "Ann, Di"
    /\ Library.artist manga = "Bo".
Proof.
  destruct (getMangaDetails_credits Cases.library_server Scenario.configured
              "http://komga/api/v1" "Basic b2xkOm9sZA==" "M1" _ Cases.saga
              eq_refl eq_refl eq_refl eq_refl)
    as (manga & Hrun & Hauthor & Hartist & _).
  exists manga. split; [exact Hrun|]. split; [exact Hauthor|exact Hartist].
Defined.

(** The fields of [Cases.saga]: the summary of the books stands in for the
    missing one, and "ENDED" is completed. *)
Lemma getMangaDetails_fields_witness :
  exists manga,
    fst (Library.getMangaDetails Cases.library_server "M1"
           Scenario.configured)
    = Paperback.Resolved manga
    /\ Library.desc manga = "Two soldiers flee a war."
    /\ Library.manga_status manga = Paperback.COMPLETED.
Proof.
  destruct (getMangaDetails_fields Cases.library_server Scenario.configured
              "http://komga/api/v1" "Basic b2xkOm9sZA==" "M1" _ Cases.saga
              eq_refl eq_refl eq_refl eq_refl)
    as (manga & Hrun & _ & Hdesc & Hstatus & _).
  exists manga. split; [exact Hrun|].
  split; [by apply Hdesc | by apply Hstatus].
Defined.

(** The two volumes of [Cases.saga], in French. *)
Lemma getChapters_chapters_witness :
  exists chapters,
    fst (Library.getChapters Cases.library_server Cases.codes "M1"
           Scenario.configured)
    = Paperback.Resolved chapters
    /\ List.length chapters = 2%nat
    /\ forall chapter,
         In chapter chapters -> Library.langCode chapter = Some "france".
Proof.
  destruct (getChapters_chapters Cases.library_server Cases.codes
              Scenario.configured "http://komga/api/v1" "Basic b2xkOm9sZA=="
              "M1" _ [Cases.volume 1 "1" "B1"; Cases.volume 2 "2" "B2"]
              _ Cases.saga eq_refl eq_refl eq_refl eq_refl eq_refl eq_refl)
    as (chapters & Hrun & Hlen & _ & Hall).
  exists chapters. split; [exact Hrun|]. split; [exact Hlen|].
  intros chapter Hin. by apply (Hall chapter Hin).
Defined.

(** The books are listed, the series cannot be fetched. *)
Lemma getChapters_needs_series_witness :
  fst (Library.getChapters Cases.books_only_server Cases.codes "M1"
         Scenario.configured)
  = Paperback.Rejected "AsyncOperationTimedOutError".
Proof.
  by rewrite (getChapters_needs_series Cases.books_only_server Cases.codes
                Scenario.configured "http://komga/api/v1"
                "Basic b2xkOm9sZA==" "M1" _ "AsyncOperationTimedOutError"
                eq_refl eq_refl eq_refl eq_refl).
Defined.

(** The home page when the "updated" listing settles first. *)
Lemma getHomePageSections_sections_witness :
  map (fun section =>
         (Home.home_id section,
          option_map (map Paperback.tile_id) (Home.items section)))
    (Home.callbacks
       (fst (Home.getHomePageSections Cases.home_server true
               Scenario.configured)))
  = [("new", None); ("updated", None);
     ("updated", Some ["U"]); ("new", Some ["N"])].
Proof.
  destruct (getHomePageSections_sections Cases.home_server true
              Scenario.configured "http://komga/api/v1" "Basic b2xkOm9sZA=="
              _ _ [Scenario.serie_of "N" "LEFT_TO_RIGHT" 2000]
              [Scenario.serie_of "U" "WEBTOON" 3000]
              eq_refl eq_refl eq_refl eq_refl eq_refl eq_refl)
    as (_ & Hcalls & _).
  by rewrite Hcalls.
Defined.

(** The home page when the "new" listing cannot be fetched. *)
Lemma getHomePageSections_partial_witness :
  Home.outcome
    (fst (Home.getHomePageSections Cases.half_server false
            Scenario.configured))
  = Paperback.Rejected "AsyncOperationTimedOutError"
  /\ map Home.home_id
       (Home.callbacks
          (fst (Home.getHomePageSections Cases.half_server false
                  Scenario.configured)))
     = ["new"; "updated"; "updated"].
Proof.
  destruct (getHomePageSections_partial Cases.half_server false
              Scenario.configured "http://komga/api/v1" "Basic b2xkOm9sZA=="
              "AsyncOperationTimedOutError" _
              [Scenario.serie_of "U" "WEBTOON" 3000]
              eq_refl eq_refl eq_refl eq_refl eq_refl)
    as (Hout & Hcalls).
  split; [exact Hout|]. by rewrite Hcalls.
Defined.
